(** * GCC_Cal: the cost calculator of app.py

    A shallow embedding of [calculate_costs] (app.py, lines 69-131) and of
    the Python and pandas operations it is built from.

    Numbers are modelled as the program has them.  Every cost is a Python
    [float] or a numpy [float64], that is an IEEE 754 binary64 number: the
    kernel's primitive [float], whose operations round to nearest, ties to
    even, as the hardware does.  The headcount is a Python [int], hence an
    unbounded [Z].  The [Cost_INR_PM] column and the six plan cost columns
    are float64 columns (a column of whole numbers only, which pandas reads
    as int64, is outside this model).  The [MinHC] and [MaxHC] columns hold
    integers; [iterrows] hands each row of the plan table over as a float64
    row, so the bracket test compares float64 cells with the headcount
    rounded to float64.  A data frame is the list of its rows, in table
    order, and a city or plan name is a string.

    The second part of the file covers the rest of app.py that computes:
    [clean_tier_name], the column checks and the tier cleaning of
    [load_data], [get_plan_details], [convert_numpy_types] and the tier and
    city menus of [index] and [calculate].  The report text, the clock, the
    spreadsheet reader and the web layer are not modelled. *)

From Stdlib Require Import ZArith NArith List String Ascii Bool Floats Lia.
From Stdlib Require Import Sorted Permutation Zpower.
Import ListNotations.

#[local] Set Warnings "-inexact-float".
#[local] Set Warnings "-register-all".
#[local] Open Scope string_scope.
#[local] Open Scope list_scope.
#[local] Open Scope Z_scope.

(** ** Data model *)

(** A row of the [Real_Estate] or of the [IT_Infra] sheet. *)
Record CostRow : Set := mkCostRow {
  Tier : string;
  City : string;
  Cost_INR_PM : float
}.

(** A row of the [Plans] sheet. *)
Record PlanRow : Set := mkPlanRow {
  MinHC : Z;
  MaxHC : Z;
  Enab_Basic : float;
  Enab_Premium : float;
  Enab_Advance : float;
  Tech_Basic : float;
  Tech_Premium : float;
  Tech_Advance : float
}.

(** The six values [calculate_costs] returns on success, in the order of
    its [return] statement (line 127). *)
Record Costs : Set := mkCosts {
  total_real_estate_cost : float;
  total_it_infra_cost : float;
  enab_cost : float;
  tech_cost : float;
  total_cost : float;
  hourly_cost_per_head_usd : float
}.

(** ** Exceptions

    The exceptions the body of [calculate_costs] can raise; all of them are
    caught by its [except Exception] clause (line 129). *)
Inductive exn : Set :=
| IndexError          (* [.values[0]] on an empty selection *)
| OverflowError       (* a Python int too large for a float *)
| ZeroDivisionError.  (* float division by zero *)

Module Py.

(** The error monad of a [try] block: [inl e] is "raised [e]". *)
Definition M (A : Type) : Type := (exn + A)%type.

Definition ret {A : Type} (a : A) : M A := inr a.

Definition raise {A : Type} (e : exn) : M A := inl e.

Definition bind {A B : Type} (m : M A) (k : A -> M B) : M B :=
  match m with
  | inl e => inl e
  | inr a => k a
  end.

End Py.

Declare Scope py_scope.
Delimit Scope py_scope with py.
Notation "x <- m ;; k" := (Py.bind m (fun x => k))
  (at level 61, m at next level, right associativity) : py_scope.
Notation "'_' <- m ;; k" := (Py.bind m (fun _ => k))
  (at level 61, m at next level, right associativity) : py_scope.
#[local] Open Scope py_scope.

(** ** Python and numpy arithmetic *)

(** The binary64 number nearest to an integer (ties to even); an integer
    beyond the largest finite float rounds to an infinity. *)
Definition Z2float (n : Z) : float :=
  SF2Prim (binary_normalize prec emax n 0 false).

(** [m] and [e] are the 53-bit mantissa and the exponent of the float of
    the positive integer [p], when that float is [p] itself. *)
Definition canon (p m : positive) (e : Z) : Prop :=
  Zpos (digits2_pos m) = 53 /\ -52 <= e <= 1 /\
  Zpos m * 2 ^ (e + 52) = Zpos p * 2 ^ 52.

(** Conversion of a Python [int] operand to a float, as the mixed
    operators [float * int] and [float / int] do it: it raises
    [OverflowError] when the integer is too large. *)
Definition float_of_int (n : Z) : Py.M float :=
  let f := Z2float n in
  if is_infinity f then Py.raise OverflowError else Py.ret f.

(** [x * n] for a float64 [x] and a Python int [n]. *)
Definition float_mul_int (x : float) (n : Z) : Py.M float :=
  f <- float_of_int n ;;
  Py.ret (x * f)%float.

(** [x / n] for a Python float [x] and a Python int [n]: the divisor is
    converted first, and a zero divisor raises [ZeroDivisionError] where
    IEEE arithmetic would return an infinity or a NaN.  The converted
    divisor is [0.0] for the integer 0 only (every other integer rounds to
    a float of magnitude 1 or more), so the test is the one on [n]. *)
Definition float_div_int (x : float) (n : Z) : Py.M float :=
  f <- float_of_int n ;;
  if n =? 0 then Py.raise ZeroDivisionError else Py.ret (x / f)%float.

(** ** Table lookups *)

(** [df[df["City"] == selected_city]]: the rows of the city, in table
    order. *)
Definition city_rows (df : list CostRow) (selected_city : string)
  : list CostRow :=
  filter (fun r => String.eqb (City r) selected_city) df.

(** [df[df["City"] == selected_city]["Cost_INR_PM"].values[0]]
    (lines 81 and 86). *)
Definition first_cost (df : list CostRow) (selected_city : string)
  : Py.M float :=
  match map Cost_INR_PM (city_rows df selected_city) with
  | [] => Py.raise IndexError
  | c :: _ => Py.ret c
  end.

(** [row["MinHC"] <= headcount <= row["MaxHC"]] (line 92), for a headcount
    within float range.  The row that [iterrows] yields is a float64 row:
    its [MinHC] and [MaxHC] cells are the floats of the integers of the
    sheet, and numpy compares a float64 with a Python int after rounding
    the int to float64. *)
Definition in_bracket (row : PlanRow) (headcount : Z) : bool :=
  ((Z2float (MinHC row) <=? Z2float headcount)
   && (Z2float headcount <=? Z2float (MaxHC row)))%float.

(** The loop of lines 90-94 for a headcount within float range: the first
    row whose test succeeds, [None] when the loop ends without a
    [break]. *)
Fixpoint scan_plans (plans_df : list PlanRow) (headcount : Z)
  : option PlanRow :=
  match plans_df with
  | [] => None
  | row :: rest =>
      if in_bracket row headcount then Some row
      else scan_plans rest headcount
  end.

(** The loop of lines 90-94 inside the [try] block.  The first comparison
    converts the headcount to float64 and raises [OverflowError] when it is
    too large; an empty table is never compared with. *)
Definition scan_plans_try (plans_df : list PlanRow) (headcount : Z)
  : Py.M (option PlanRow) :=
  match plans_df with
  | [] => Py.ret None
  | _ :: _ =>
      _ <- float_of_int headcount ;;
      Py.ret (scan_plans plans_df headcount)
  end.

(** The plan branches of lines 101-106 and 110-115: [Basic], [Premium],
    and the [else] branch for every other name. *)
Definition enab_of_plan (selected_plan : string) (plan_row : PlanRow)
  : float :=
  if String.eqb selected_plan "Basic" then Enab_Basic plan_row
  else if String.eqb selected_plan "Premium" then Enab_Premium plan_row
  else Enab_Advance plan_row.

Definition tech_of_plan (selected_plan : string) (plan_row : PlanRow)
  : float :=
  if String.eqb selected_plan "Basic" then Tech_Basic plan_row
  else if String.eqb selected_plan "Premium" then Tech_Premium plan_row
  else Tech_Advance plan_row.

(** ** calculate_costs *)

Definition usd_inr_rate : Z := 85.
Definition hours_in_month : Z := 120.

(** Lines 80-82 and 85-87: the cost of one per-seat category. *)
Definition seat_cost (toggle : bool) (df : list CostRow)
  (selected_city : string) (headcount : Z) : Py.M float :=
  if toggle then
    cost_per_seat <- first_cost df selected_city ;;
    float_mul_int cost_per_seat headcount
  else Py.ret 0%float.

(** The body of the [try] block (lines 73-127).  [inr None] is the
    [return None, None, None, None, None, None] of line 97. *)
Definition calculate_costs_try
  (headcount : Z) (selected_city selected_plan : string)
  (real_estate_toggle it_infra_toggle enabling_toggle technology_toggle : bool)
  (real_estate_df it_infra_df : list CostRow) (plans_df : list PlanRow)
  : Py.M (option Costs) :=
  re <- seat_cost real_estate_toggle real_estate_df selected_city headcount ;;
  it <- seat_cost it_infra_toggle it_infra_df selected_city headcount ;;
  found <- scan_plans_try plans_df headcount ;;
  match found with
  | None => Py.ret None
  | Some plan_row =>
      let enab :=
        if enabling_toggle then enab_of_plan selected_plan plan_row
        else 0%float in
      let tech :=
        if technology_toggle then tech_of_plan selected_plan plan_row
        else 0%float in
      let total_plan_cost := (enab + tech)%float in
      let total := (re + it + total_plan_cost)%float in
      per_head <- float_div_int total headcount ;;
      per_hour <- float_div_int per_head hours_in_month ;;
      hourly <- float_div_int per_hour usd_inr_rate ;;
      Py.ret (Some (mkCosts re it enab tech total hourly))
  end.

(** [calculate_costs]: the [try] block under its handler (lines 129-131),
    which turns every exception into the tuple of six [None].  That tuple,
    from the handler or from line 97, is [None] here. *)
Definition calculate_costs
  (headcount : Z) (selected_city selected_plan : string)
  (real_estate_toggle it_infra_toggle enabling_toggle technology_toggle : bool)
  (real_estate_df it_infra_df : list CostRow) (plans_df : list PlanRow)
  : option Costs :=
  match calculate_costs_try headcount selected_city selected_plan
          real_estate_toggle it_infra_toggle enabling_toggle technology_toggle
          real_estate_df it_infra_df plans_df with
  | inl _ => None
  | inr result => result
  end.

(** The costs of a successful run (lines 99-127), from the values its
    earlier steps produced: the two per-seat costs, the selected bracket
    and the headcount as a float. *)
Definition costs_of (selected_plan : string)
  (enabling_toggle technology_toggle : bool)
  (re it : float) (plan_row : PlanRow) (hc : float) : Costs :=
  let enab :=
    if enabling_toggle then enab_of_plan selected_plan plan_row
    else 0%float in
  let tech :=
    if technology_toggle then tech_of_plan selected_plan plan_row
    else 0%float in
  let total := (re + it + (enab + tech))%float in
  mkCosts re it enab tech total (total / hc / 120 / 85)%float.

(** A table with tiers rewritten row by row; cities and costs are kept. *)
Definition retier (f : CostRow -> string) (df : list CostRow)
  : list CostRow :=
  map (fun r => mkCostRow (f r) (City r) (Cost_INR_PM r)) df.

(** ** Text: strip, re.sub and re.match (clean_tier_name, lines 16-25)

    A character of a [string] stands for the Python code point of the same
    number, so the strings of this model are the Python strings whose code
    points are below 256. *)

(** [str.isspace] and the class [\s] of [re] on those code points:
    tab to carriage return, the four separators 28-31, the space,
    NEL (133) and the no-break space (160). *)
Definition isspace (c : ascii) : bool :=
  let n := N_of_ascii c in
  ((9 <=? n) && (n <=? 13) || (28 <=? n) && (n <=? 32)
   || (n =? 133) || (n =? 160))%N.

(** The class [\d] of [re]: below 256 the decimal digits are 0 to 9. *)
Definition isdecimal (c : ascii) : bool :=
  let n := N_of_ascii c in ((48 <=? n) && (n <=? 57))%N.

Fixpoint lstrip (s : string) : string :=
  match s with
  | EmptyString => EmptyString
  | String c rest => if isspace c then lstrip rest else s
  end.

Fixpoint rstrip (s : string) : string :=
  match s with
  | EmptyString => EmptyString
  | String c rest =>
      match rstrip rest with
      | EmptyString => if isspace c then EmptyString else String c EmptyString
      | kept => String c kept
      end
  end.

(** [s.strip()]: leading and trailing whitespace removed. *)
Definition strip (s : string) : string := rstrip (lstrip s).

(** [re.sub(r'\s+', ' ', s)]: every maximal run of whitespace becomes one
    space.  [in_run] tells that the previous character was whitespace. *)
Fixpoint sub_spaces (in_run : bool) (s : string) : string :=
  match s with
  | EmptyString => EmptyString
  | String c rest =>
      if isspace c then
        if in_run then sub_spaces true rest
        else String " " (sub_spaces true rest)
      else String c (sub_spaces false rest)
  end.

(** What is left of [s] after its longest prefix of characters in [p]. *)
Fixpoint skip (p : ascii -> bool) (s : string) : string :=
  match s with
  | EmptyString => EmptyString
  | String c rest => if p c then skip p rest else s
  end.

(** The longest prefix of [s] of characters in [p]. *)
Fixpoint take (p : ascii -> bool) (s : string) : string :=
  match s with
  | EmptyString => EmptyString
  | String c rest => if p c then String c (take p rest) else EmptyString
  end.

Definition starts (p : ascii -> bool) (s : string) : bool :=
  match s with
  | EmptyString => false
  | String c _ => p c
  end.

(** [$] without [re.MULTILINE]: the end of the string, or the position
    before a newline that ends the string. *)
Definition at_end (s : string) : bool :=
  match s with
  | EmptyString => true
  | String c EmptyString => Ascii.eqb c "010"
  | _ => false
  end.

(** [re.match(r'^Tier\s+\d+$', s)] finds a match.  No character is both
    whitespace and a digit, so the greedy [\s+] and [\d+] never give a
    character back: the match takes all the whitespace after [Tier], then
    all the digits, and must then be at the end. *)
Definition match_tier (s : string) : bool :=
  match s with
  | String "T" (String "i" (String "e" (String "r" rest))) =>
      starts isspace rest &&
      let digits := skip isspace rest in
      starts isdecimal digits && at_end (skip isdecimal digits)
  | _ => false
  end.

(** Lines 21-25 on a text cell. *)
Definition clean_tier_text (tier : string) : string :=
  let cleaned := sub_spaces false (strip tier) in
  if match_tier cleaned then cleaned else tier.

(** [clean_tier_name] on a cell of the Tier column: [None] is a missing
    cell ([pd.isna], lines 18-19), [Some text] a text cell. *)
Definition clean_tier_name (tier : option string) : option string :=
  match tier with
  | None => None
  | Some text => Some (clean_tier_text text)
  end.

(** Every character of [s] is in [p]. *)
Fixpoint all_of (p : ascii -> bool) (s : string) : bool :=
  match s with
  | EmptyString => true
  | String c rest => p c && all_of p rest
  end.

(** The only whitespace of [s] is single spaces, none of them first when
    [after_space] is set. *)
Fixpoint single_spaced (after_space : bool) (s : string) : bool :=
  match s with
  | EmptyString => true
  | String c rest =>
      if isspace c then
        Ascii.eqb c " " && negb after_space && single_spaced true rest
      else single_spaced false rest
  end.

(** ** load_data (lines 28-66): the steps between reading and returning *)

(** Lines 40-41 on the rows of a cost sheet: the Tier column goes through
    [clean_tier_name]. *)
Definition clean_tiers (df : list CostRow) : list CostRow :=
  retier (fun r => clean_tier_text (Tier r)) df.

(** Lines 50-54. *)
Definition required_columns : list (string * list string) :=
  [("Real_Estate", ["Tier"; "City"; "Cost_INR_PM"]);
   ("IT_Infra", ["Tier"; "City"; "Cost_INR_PM"]);
   ("Plans", ["MinHC"; "MaxHC"; "Enab_Basic"; "Enab_Premium";
              "Enab_Advance"; "Tech_Basic"; "Tech_Premium";
              "Tech_Advance"])].

(** What the [try] block of [load_data] raises after the sheets are read. *)
Inductive load_exn : Set :=
| KeyError (key : string)
| ValueError (message : string).

(** [col in df.columns]. *)
Definition has_column (columns : list string) (col : string) : bool :=
  existsb (String.eqb col) columns.

(** Line 58. *)
Definition missing_columns (required columns : list string) : list string :=
  filter (fun col => negb (has_column columns col)) required.

(** [dfs[sheet]], when [sheet in dfs]. *)
Fixpoint lookup_sheet (dfs : list (string * list string)) (sheet : string)
  : option (list string) :=
  match dfs with
  | [] => None
  | (name, columns) :: rest =>
      if String.eqb name sheet then Some columns else lookup_sheet rest sheet
  end.

(** The [repr] of a list of column names, for names without quotes,
    backslashes or control characters, as the required ones are. *)
Definition repr_names (names : list string) : string :=
  ("[" ++ String.concat ", " (map (fun n => "'" ++ n ++ "'") names)
   ++ "]")%string.

(** The message of line 59. *)
Definition missing_message (sheet : string) (missing : list string)
  : string :=
  ("Missing required columns in " ++ sheet ++ " sheet: "
   ++ repr_names missing)%string.

(** The loop of lines 56-59 over the column names of each sheet. *)
Fixpoint validate_columns (required : list (string * list string))
  (dfs : list (string * list string)) : load_exn + unit :=
  match required with
  | [] => inr tt
  | (sheet, columns) :: rest =>
      match lookup_sheet dfs sheet with
      | Some present =>
          if forallb (has_column present) columns
          then validate_columns rest dfs
          else inl (ValueError
                      (missing_message sheet
                         (missing_columns columns present)))
      | None => validate_columns rest dfs
      end
  end.

(** Lines 40-59 on the column names of the three sheets: the two accesses
    to the Tier column (a [KeyError] when it is absent), then the
    validation.  [load_data] returns its four [None] exactly when this, or
    a read before it, raises. *)
Definition load_data_checks
  (real_estate_columns it_infra_columns plans_columns : list string)
  : load_exn + unit :=
  if negb (has_column real_estate_columns "Tier") then inl (KeyError "Tier")
  else if negb (has_column it_infra_columns "Tier") then inl (KeyError "Tier")
  else validate_columns required_columns
         [("Real_Estate", real_estate_columns);
          ("IT_Infra", it_infra_columns);
          ("Plans", plans_columns)].

(** ** get_plan_details (lines 168-195) *)

Module Details.

(** The dictionary [get_plan_details] returns, by key. *)
Record t : Set := make {
  name : string;
  description : string;
  real_estate : string;
  it_infra : string;
  enabling_functions : string;
  technology : string
}.

End Details.

Definition basic_details : Details.t :=
  Details.make
    "Basic"
    "Essential GCC setup with core functionality"
    "Managed Workspace"
    ("Hardware, Networking, Security solutions, Cloud, IT "
     ++ "Support, Collaboration tools, Data-centre, "
     ++ "Disaster-recovery backups, Compliance & audits, End-user "
     ++ "peripherals, cybersecurity (SIEM/DLP), Biometric "
     ++ "attendance/access")%string
    "Based on team size: HR/Admin, Finance, IT, Admin, HRBP+Ops"
    ("Platforms like Talent Trail, Zoho People, Freshteam, Keka "
     ++ "Foundation, BambooHR, SAP SuccessFactors, Recruiter "
     ++ "Fusion, Zoho Books")%string.

Definition premium_details : Details.t :=
  Details.make
    "Premium"
    "Enhanced GCC setup with additional features"
    "Managed Workspace"
    ("Hardware, Networking, Security solutions, Cloud/SaaS, IT "
     ++ "Support & AMC, Collaboration tools, "
     ++ "Data-centre/Colocation, Disaster-recovery backups, "
     ++ "Compliance & audits, End-user peripherals, Advanced "
     ++ "cybersecurity (SIEM/DLP), Biometric attendance/access")%string
    ("HR/Admin, Finance, IT, Admin, HRBP+Ops, Marketing, Legal, "
     ++ "Finance, Other")%string
    ("Talent Trail, Zoho Campaigns, Contracts, Books, Premium, "
     ++ "Keka Foundation, BambooHR, Darwinbox, SAP SuccessFactors, "
     ++ "Recruiter Fusion")%string.

Definition advance_details : Details.t :=
  Details.make
    "Advance"
    "Comprehensive GCC setup with full customization"
    "Managed Workspace"
    ("Hardware, Networking, Security solutions, Cloud/SaaS, IT "
     ++ "Support & AMC, Collaboration tools, "
     ++ "Data-centre/Colocation, Disaster-recovery backups, "
     ++ "Compliance & audits, End-user peripherals, Advanced "
     ++ "cybersecurity (SIEM/DLP), Biometric attendance/access")%string
    ("HR/Admin, Finance, IT, Admin, HRBP+Ops, Marketing, Legal, "
     ++ "Finance, Vendor Mgmt, Other")%string
    ("Talent Trial, HubSpot Pro, DocuSign CLM, QuickBooks Adv, "
     ++ "Salesforce Marketing Cloud, Xero, Notion, Marketo Pro, "
     ++ "ContractWorks, NetSuite, Oracle Eloqua, Agifo, SAP B1, "
     ++ "Slack Grid, Keka Foundation, BambooHR, Darwinbox, SAP "
     ++ "SuccessFactors, Recruiter Fusion")%string.

Definition get_plan_details (plan : string) : Details.t :=
  if String.eqb plan "Basic" then basic_details
  else if String.eqb plan "Premium" then premium_details
  else advance_details.

(** ** convert_numpy_types (lines 198-208) *)

(** The Python values the function tells apart, and the numpy arrays.

    A numpy scalar is an [np.integer], an [np.floating] of at most 64 bits
    (np.float16, np.float32, np.float64), or one of the others, given by
    type name and printed value.  The function returns the others as they
    are: those that are neither [np.integer] nor [np.floating] (np.bool_,
    np.complex128, np.str_, np.datetime64, ...) through its last branch,
    and np.longdouble because its [item()] is an np.longdouble again.

    An array is one element when it is 0-d, and the list of its sub-arrays
    along the first axis otherwise; an element is an integer, a float, or,
    in an array of dtype object, any Python value.

    Dictionaries have text keys; tuples and the values of the remaining
    types are returned as they are. *)
Inductive pyobj : Set :=
| NpInteger (n : Z)
| NpFloating (x : float)
| NpOther (type_name text : string)
| NdArray (a : ndarray)
| PyDict (items : list (string * pyobj))
| PyList (items : list pyobj)
| PyTuple (items : list pyobj)
| PyInt (n : Z)
| PyFloat (x : float)
| PyStr (s : string)
| PyBool (b : bool)
| PyNone
with ndarray : Set :=
| ArrInteger (n : Z)
| ArrFloating (x : float)
| ArrObject (o : pyobj)
| ArrAxis (items : list ndarray).

(** [a.tolist()]: nested lists of the elements, numbers as Python numbers
    and the elements of an object array as they are. *)
Fixpoint tolist (a : ndarray) : pyobj :=
  match a with
  | ArrInteger n => PyInt n
  | ArrFloating x => PyFloat x
  | ArrObject o => o
  | ArrAxis items => PyList (map tolist items)
  end.

Fixpoint convert_numpy_types (obj : pyobj) : pyobj :=
  match obj with
  | NpInteger n => PyInt n
  | NpFloating x => PyFloat x
  | NdArray a => tolist a
  | PyDict items =>
      PyDict (map (fun kv => (fst kv, convert_numpy_types (snd kv))) items)
  | PyList items => PyList (map convert_numpy_types items)
  | _ => obj
  end.




(** ** The tier and city menus of index and calculate
    (lines 221-231 and 292-302) *)

(** [drop_duplicates()] on one column: the first occurrence of each value
    is kept, in table order. *)
Fixpoint drop_duplicates_from (seen values : list string) : list string :=
  match values with
  | [] => []
  | v :: rest =>
      if existsb (String.eqb v) seen then drop_duplicates_from seen rest
      else v :: drop_duplicates_from (v :: seen) rest
  end.

Definition drop_duplicates (values : list string) : list string :=
  drop_duplicates_from [] values.

Fixpoint insert_sorted (v : string) (sorted : list string) : list string :=
  match sorted with
  | [] => [v]
  | w :: rest =>
      if String.leb v w then v :: sorted else w :: insert_sorted v rest
  end.

(** [list.sort()] on strings: ascending, code point by code point. *)
Definition list_sort (values : list string) : list string :=
  fold_right insert_sorted [] values.

(** [tiers] (lines 221-223). *)
Definition unique_tiers (real_estate_df : list CostRow) : list string :=
  list_sort (drop_duplicates (map Tier real_estate_df)).

(** The body of the loop of lines 226-231. *)
Definition tier_cities (real_estate_df : list CostRow) (tier : string)
  : list string :=
  list_sort
    (drop_duplicates
       (map City
          (filter (fun r => String.eqb (Tier r) tier) real_estate_df))).

(** The dictionary [cities_by_tier], entry by entry in insertion order. *)
Definition cities_by_tier (real_estate_df : list CostRow)
  : list (string * list string) :=
  map (fun tier => (tier, tier_cities real_estate_df tier))
    (unique_tiers real_estate_df).

(** Python's [<=] on strings. *)
Definition str_le (a b : string) : Prop := String.leb a b = true.

(** ** Sample tables *)

(** The request of the spec's worked example. *)
Definition example_real_estate : list CostRow :=
  [mkCostRow "Tier 1" "CityA" 10000%float].

Definition example_it_infra : list CostRow :=
  [mkCostRow "Tier1" "CityA" 5000%float].

Definition example_plans : list PlanRow :=
  [mkPlanRow 1 100 2000%float 0%float 0%float 3000%float 0%float 0%float].

(** A request with fractional costs: 25 seats at 4500.1 and 1200.2 per
    seat, plan costs 25000.3 and 18000.4. *)
Definition fractional_real_estate : list CostRow :=
  [mkCostRow "Tier 1" "CityA" 4500.1%float].

Definition fractional_it_infra : list CostRow :=
  [mkCostRow "Tier 1" "CityA" 1200.2%float].

Definition fractional_plans : list PlanRow :=
  [mkPlanRow 1 100 25000.3%float 0%float 0%float
     18000.4%float 0%float 0%float].

(** Two overlapping brackets, [1,50] at 2000 and 3000 and [40,100] at 9000
    and 9500. *)
Definition overlapping_plans : list PlanRow :=
  [mkPlanRow 1 50 2000%float 2100%float 2200%float
     3000%float 3100%float 3200%float;
   mkPlanRow 40 100 9000%float 9100%float 9200%float
     9500%float 9600%float 9700%float].

(** The bracket of the worked example, for the [hd] of a plan table. *)
Definition example_plan_row : PlanRow :=
  mkPlanRow 1 100 2000%float 0%float 0%float 3000%float 0%float 0%float.

(** One bracket that ends at 2^53, and the same followed by the bracket
    that starts at 2^53 + 1. *)
Definition plans_up_to_2_53 : list PlanRow :=
  [mkPlanRow 1 (2 ^ 53) 2000%float 2100%float 2200%float
     3000%float 3100%float 3200%float].

Definition wide_plans : list PlanRow :=
  plans_up_to_2_53 ++
  [mkPlanRow (2 ^ 53 + 1) (2 ^ 60) 9000%float 9100%float 9200%float
     9500%float 9600%float 9700%float].

(** No row of the table has the city. *)
Definition city_absent (df : list CostRow) (city : string) : Prop :=
  Forall (fun r => City r <> city) df.

(** A real-estate table without CityA. *)
Definition other_city_table : list CostRow :=
  [mkCostRow "Tier 1" "CityB" 10000%float;
   mkCostRow "Tier 2" "CityC" 7000%float].

(** A plan table whose only bracket starts at 0 heads. *)
Definition plans_from_zero : list PlanRow :=
  [mkPlanRow 0 100 2000%float 0%float 0%float 3000%float 0%float 0%float].

(** A table in which CityA occurs twice, under different tiers and costs,
    after a row of another city. *)
Definition duplicate_city_table : list CostRow :=
  [mkCostRow "Tier 1" "CityB" 8000%float;
   mkCostRow "Tier 2" "CityA" 10000%float;
   mkCostRow "Tier 1" "CityA" 99999%float].

(** ** Basic facts about the operations *)

Lemma float_of_int_hours : float_of_int hours_in_month = inr 120%float.
Proof. vm_compute. reflexivity. Qed.

Lemma float_of_int_rate : float_of_int usd_inr_rate = inr 85%float.
Proof. vm_compute. reflexivity. Qed.

Lemma float_of_int_inr (n : Z) (f : float) :
  float_of_int n = inr f -> f = Z2float n.
Proof.
  unfold float_of_int. destruct (is_infinity (Z2float n)); intros H.
  - discriminate H.
  - now inversion H.
Qed.

Lemma float_of_int_exn (n : Z) (e : exn) :
  float_of_int n = inl e -> e = OverflowError.
Proof.
  unfold float_of_int. destruct (is_infinity (Z2float n)); intros H.
  - now inversion H.
  - discriminate H.
Qed.

Lemma float_div_int_hours (x : float) :
  float_div_int x hours_in_month = inr (x / 120)%float.
Proof. unfold float_div_int. rewrite float_of_int_hours. reflexivity. Qed.

Lemma float_div_int_rate (x : float) :
  float_div_int x usd_inr_rate = inr (x / 85)%float.
Proof. unfold float_div_int. rewrite float_of_int_rate. reflexivity. Qed.

Lemma float_div_int_zero (x : float) :
  float_div_int x 0 = inl ZeroDivisionError.
Proof. vm_compute. reflexivity. Qed.

Lemma float_div_int_inr (x : float) (n : Z) (q : float) :
  float_div_int x n = inr q <->
  n <> 0 /\ exists f, float_of_int n = inr f /\ q = (x / f)%float.
Proof.
  unfold float_div_int. destruct (float_of_int n) as [e | f]; cbn.
  - split; [discriminate | intros (_ & f & Hf & _); discriminate Hf].
  - destruct (Z.eqb_spec n 0) as [-> | Hn]; cbn.
    + split; [discriminate | intros [H _]; now contradiction H].
    + split.
      * intros H. inversion H. split; [assumption | now exists f].
      * intros (_ & f' & Hf & ->). now inversion Hf.
Qed.

(** The conversion on sample integers: exact below 2^53, to the nearest
    even above, and out of range from [2^1024 - 2^970] on. *)
Example float_of_int_small : float_of_int 10 = inr 10%float.
Proof. vm_compute. reflexivity. Qed.

Example float_of_int_negative : float_of_int (-3) = inr (-3)%float.
Proof. vm_compute. reflexivity. Qed.

Example float_of_int_ties_to_even :
  float_of_int (2 ^ 53 + 1) = inr 9007199254740992%float /\
  float_of_int (2 ^ 53 + 3) = inr 9007199254740996%float.
Proof. split; vm_compute; reflexivity. Qed.

Example float_of_int_largest :
  float_of_int (2 ^ 1024 - 2 ^ 970 - 1) = inr 0x1.fffffffffffffp+1023%float.
Proof. vm_compute. reflexivity. Qed.

Example float_of_int_overflow :
  float_of_int (2 ^ 1024 - 2 ^ 970) = inl OverflowError /\
  float_of_int (- 10 ^ 400) = inl OverflowError.
Proof. split; vm_compute; reflexivity. Qed.

Example float_div_int_by_ten :
  float_div_int 155000%float 10 = inr 15500%float.
Proof. vm_compute. reflexivity. Qed.

(** The selection of a city is empty exactly when no row has the city. *)
Lemma city_rows_nil (df : list CostRow) (city : string) :
  city_rows df city = [] <-> Forall (fun r => City r <> city) df.
Proof.
  unfold city_rows. induction df as [| r df IH]; cbn.
  - split; [constructor | reflexivity].
  - destruct (String.eqb_spec (City r) city) as [E | E].
    + split; [discriminate | intros H; inversion H; contradiction].
    + rewrite IH. split; intros H.
      * now constructor.
      * now inversion H.
Qed.

Lemma first_cost_inl (df : list CostRow) (city : string) (e : exn) :
  first_cost df city = inl e <-> city_rows df city = [] /\ e = IndexError.
Proof.
  unfold first_cost. destruct (city_rows df city) as [| r rs]; cbn.
  - split; [intros H; now inversion H | now intros [_ ->]].
  - split; [discriminate | intros [H _]; discriminate H].
Qed.

(** The first row of the city supplies the cost, whatever precedes it under
    another city and whatever follows it. *)
Lemma first_cost_app (pre post : list CostRow) (r : CostRow) (city : string) :
  Forall (fun x => City x <> city) pre ->
  City r = city ->
  first_cost (pre ++ r :: post) city = inr (Cost_INR_PM r).
Proof.
  intros Hpre Hr. unfold first_cost, city_rows. rewrite filter_app.
  apply city_rows_nil in Hpre. unfold city_rows in Hpre. rewrite Hpre.
  cbn. apply String.eqb_eq in Hr. now rewrite Hr.
Qed.

Lemma scan_plans_app (pre post : list PlanRow) (row : PlanRow) (hc : Z) :
  Forall (fun r => in_bracket r hc = false) pre ->
  in_bracket row hc = true ->
  scan_plans (pre ++ row :: post) hc = Some row.
Proof.
  intros Hpre Hrow. induction Hpre as [| r pre Hr _ IH]; cbn.
  - now rewrite Hrow.
  - now rewrite Hr.
Qed.

Lemma scan_plans_Some (plans : list PlanRow) (hc : Z) (row : PlanRow) :
  scan_plans plans hc = Some row ->
  exists pre post,
    plans = pre ++ row :: post /\
    Forall (fun r => in_bracket r hc = false) pre /\
    in_bracket row hc = true.
Proof.
  induction plans as [| r plans IH]; cbn; [discriminate |].
  destruct (in_bracket r hc) eqn:E.
  - intros H. inversion H; subst. exists [], plans. now repeat split.
  - intros H. destruct (IH H) as (pre & post & -> & Hpre & Hrow).
    exists (r :: pre), post. repeat split; [now constructor | assumption].
Qed.

Lemma scan_plans_None (plans : list PlanRow) (hc : Z) :
  scan_plans plans hc = None <->
  Forall (fun r => in_bracket r hc = false) plans.
Proof.
  induction plans as [| r plans IH]; cbn.
  - split; [constructor | reflexivity].
  - destruct (in_bracket r hc) eqn:E.
    + split; [discriminate | intros H; inversion H; congruence].
    + rewrite IH. split; intros H; [now constructor | now inversion H].
Qed.

(** ** Integers up to 2^53 as floats

    Such an integer is its own float, so the order of two of them as floats
    is their order as integers. *)

Lemma digits2_pos_bounds (p : positive) :
  2 ^ (Zpos (digits2_pos p) - 1) <= Zpos p < 2 ^ Zpos (digits2_pos p).
Proof.
  induction p as [p IH | p IH |]; cbn [digits2_pos].
  - rewrite Pos2Z.inj_succ.
    replace (Z.succ (Zpos (digits2_pos p)) - 1) with (Z.succ (Zpos (digits2_pos p) - 1)) by lia.
    rewrite !Z.pow_succ_r by lia. lia.
  - rewrite Pos2Z.inj_succ.
    replace (Z.succ (Zpos (digits2_pos p)) - 1) with (Z.succ (Zpos (digits2_pos p) - 1)) by lia.
    rewrite !Z.pow_succ_r by lia. lia.
  - cbn. lia.
Qed.

Lemma digits2_pos_shift (p k : positive) :
  digits2_pos (Pos.iter xO p k) = (digits2_pos p + k)%positive.
Proof.
  induction k as [| k IH] using Pos.peano_ind.
  - cbn. lia.
  - rewrite Pos.iter_succ. cbn [digits2_pos]. rewrite IH. lia.
Qed.

Lemma Zpos_shift (p k : positive) :
  Zpos (Pos.iter xO p k) = Zpos p * 2 ^ Zpos k.
Proof.
  induction k as [| k IH] using Pos.peano_ind.
  - cbn. lia.
  - rewrite Pos.iter_succ, Pos2Z.inj_succ, Z.pow_succ_r by lia.
    rewrite Pos2Z.inj_xO, IH. lia.
Qed.

Lemma binary_round_small (s : bool) (p : positive) :
  Zpos p <= 2 ^ 53 ->
  exists m e, binary_round prec emax s p 0 = S754_finite s m e /\ canon p m e.
Proof.
  intros Hp.
  pose proof (digits2_pos_bounds p) as Hd.
  destruct (Z_le_gt_dec (Zpos (digits2_pos p)) 53) as [Hle | Hgt].
  - (* at most 53 digits *)
    remember (digits2_pos p) as d eqn:Ed.
    assert (Hshl : exists mz, shl_align p 0 (fexp prec emax (Zpos d + 0)) = (mz, Zpos d - 53)
              /\ Zpos (digits2_pos mz) = 53 /\ Zpos mz * 2 ^ (Zpos d - 53 + 52) = Zpos p * 2 ^ 52).
    { unfold fexp, emin, prec, emax. rewrite Z.add_0_r.
      rewrite Z.max_l by lia. unfold shl_align. rewrite Z.sub_0_r.
      destruct (Zpos d - 53) as [| q | q] eqn:E; try lia.
      - exists p. split; [reflexivity |]. split; [rewrite <- Ed; lia |].
        replace (0 + 52) with 52 by lia. reflexivity.
      - exists (Pos.iter xO p q). split; [reflexivity |]. split.
        + rewrite digits2_pos_shift, <- Ed. lia.
        + rewrite Zpos_shift. 
          replace 52 with ((Z.neg q + 52) + Zpos q) at 2 by lia.
          rewrite (Z.pow_add_r 2 (Z.neg q + 52) (Zpos q)) by lia. lia. }
    destruct Hshl as (mz & Hshl & Hdig & Hval).
    unfold binary_round. rewrite <- Ed, Hshl.
    exists mz, (Zpos d - 53). split.
    + unfold binary_round_aux, shr_fexp. cbn [Zdigits2]. rewrite Hdig.
      unfold fexp, emin, prec, emax.
      replace (Z.max (53 + (Zpos d - 53) - 53) (3 - 1024 - 53) - (Zpos d - 53)) with 0 by lia.
      cbn [shr shr_record_of_loc shr_m loc_of_shr_record round_nearest_even Zdigits2].
      rewrite Hdig.
      replace (Z.max (53 + (Zpos d - 53) - 53) (3 - 1024 - 53) - (Zpos d - 53)) with 0 by lia.
      cbn [shr shr_record_of_loc shr_m].
      destruct (Z.leb_spec (Zpos d - 53) (1024 - 53)); [reflexivity | lia].
    + split; [exact Hdig |]. split; [lia | exact Hval].
  - (* exactly 2^53 *)
    assert (E : Zpos p = 2 ^ 53).
    { assert (2 ^ 53 <= 2 ^ (Zpos (digits2_pos p) - 1)) by (apply Z.pow_le_mono_r; lia). lia. }
    assert (Ep : p = 9007199254740992%positive) by (apply Pos2Z.inj; rewrite E; reflexivity).
    subst p. exists 4503599627370496%positive, 1. split.
    + destruct s; vm_compute; reflexivity.
    + unfold canon. split; [reflexivity |]. split; [lia | reflexivity].
Qed.

Lemma canon_valid (s : bool) (p m : positive) (e : Z) :
  canon p m e -> valid_binary (S754_finite s m e) = true.
Proof.
  intros (Hd & He & _). unfold valid_binary, SpecFloat.valid_binary, bounded, canonical_mantissa.
  rewrite Hd. unfold fexp, emin, prec, emax.
  apply andb_true_iff. split.
  - apply Z.eqb_eq. lia.
  - apply Z.leb_le. lia.
Qed.

Lemma canon_mantissa (p m : positive) (e : Z) :
  canon p m e -> 2 ^ 52 <= Zpos m < 2 ^ 53.
Proof.
  intros (Hd & _). pose proof (digits2_pos_bounds m) as H.
  rewrite Hd in H. exact H.
Qed.

(** The order of two small integers is the order of their exponents, then
    of their mantissas. *)
Lemma canon_compare (p q m n : positive) (e f : Z) :
  canon p m e -> canon q n f ->
  match e ?= f with
  | Lt => Lt
  | Gt => Gt
  | Eq => Pos.compare_cont Eq m n
  end = (Zpos p ?= Zpos q).
Proof.
  intros Hp Hq.
  pose proof (canon_mantissa _ _ _ Hp) as Hm.
  pose proof (canon_mantissa _ _ _ Hq) as Hn.
  destruct Hp as (_ & He & Vp), Hq as (_ & Hf & Vq).
  assert (P52 : 0 < 2 ^ 52) by (apply Z.pow_pos_nonneg; lia).
  destruct (Z.compare_spec e f) as [E | E | E].
  - subst f. change (Pos.compare_cont Eq m n) with (Zpos m ?= Zpos n).
    assert (Pe : 0 < 2 ^ (e + 52)) by (apply Z.pow_pos_nonneg; lia).
    destruct (Z.compare_spec (Zpos m) (Zpos n)) as [C | C | C]; symmetry.
    + apply Z.compare_eq_iff. rewrite C in Vp. nia.
    + apply Z.compare_lt_iff. nia.
    + apply Z.compare_gt_iff. nia.
  - symmetry. apply Z.compare_lt_iff.
    assert (Pe : 0 < 2 ^ (e + 52)) by (apply Z.pow_pos_nonneg; lia).
    assert (Hstep : 2 * 2 ^ (e + 52) <= 2 ^ (f + 52)).
    { rewrite <- Z.pow_succ_r by lia. apply Z.pow_le_mono_r; lia. }
    assert (Zpos m * 2 ^ (e + 52) < Zpos n * 2 ^ (f + 52)) by nia.
    nia.
  - symmetry. apply Z.compare_gt_iff.
    assert (Pf : 0 < 2 ^ (f + 52)) by (apply Z.pow_pos_nonneg; lia).
    assert (Hstep : 2 * 2 ^ (f + 52) <= 2 ^ (e + 52)).
    { rewrite <- Z.pow_succ_r by lia. apply Z.pow_le_mono_r; lia. }
    assert (Zpos n * 2 ^ (f + 52) < Zpos m * 2 ^ (e + 52)) by nia.
    nia.
Qed.

(** The float of a small integer, as a specified float. *)
Lemma binary_normalize_small (z : Z) :
  Z.abs z <= 2 ^ 53 ->
  match z with
  | Z0 => binary_normalize prec emax z 0 false = S754_zero false
  | Zpos p => exists m e,
      binary_normalize prec emax z 0 false = S754_finite false m e /\
      canon p m e
  | Zneg p => exists m e,
      binary_normalize prec emax z 0 false = S754_finite true m e /\
      canon p m e
  end.
Proof.
  destruct z as [| p | p]; intros H; cbn [binary_normalize].
  - reflexivity.
  - apply binary_round_small. exact H.
  - apply binary_round_small. exact H.
Qed.

Lemma Z2float_leb (a b : Z) :
  Z.abs a <= 2 ^ 53 -> Z.abs b <= 2 ^ 53 ->
  (Z2float a <=? Z2float b)%float = (a <=? b).
Proof.
  intros Ha Hb. unfold Z2float. rewrite leb_spec.
  pose proof (binary_normalize_small a Ha) as Sa.
  pose proof (binary_normalize_small b Hb) as Sb.
  destruct a as [| p | p], b as [| q | q];
    repeat match goal with
      | H : exists m e, _ |- _ => destruct H as (? & ? & ? & ?)
      end;
    repeat match goal with
      | H : binary_normalize _ _ _ _ _ = _ |- _ => rewrite H
      end;
    repeat match goal with
      | H : canon _ ?m ?e |- context [S754_finite ?s ?m ?e] =>
          rewrite (Prim2SF_SF2Prim (S754_finite s m e) (canon_valid s _ _ _ H))
      end;
    try (rewrite (Prim2SF_SF2Prim (S754_zero false) eq_refl));
    try reflexivity.
  - (* pos, pos *)
    unfold SFleb, SFcompare.
    match goal with
    | Hp : canon p _ _, Hq : canon q _ _ |- _ =>
        rewrite (canon_compare _ _ _ _ _ _ Hp Hq)
    end.
    unfold Z.leb. destruct (Zpos p ?= Zpos q); reflexivity.
  - (* neg, neg *)
    unfold SFleb, SFcompare.
    match goal with
    | Hp : canon p ?m ?e, Hq : canon q ?n ?f |- _ =>
        pose proof (canon_compare _ _ _ _ _ _ Hp Hq) as C;
        replace (match e ?= f with
                 | Eq => CompOpp (Pos.compare_cont Eq m n)
                 | Lt => Gt
                 | Gt => Lt
                 end)
          with (CompOpp (match e ?= f with
                         | Eq => Pos.compare_cont Eq m n
                         | Lt => Lt
                         | Gt => Gt
                         end)) by (destruct (e ?= f); reflexivity);
        rewrite C
    end.
    unfold Z.leb. cbn [Z.compare]. 
    destruct (p ?= q)%positive; reflexivity.
Qed.


(** An integer up to 2^53 in magnitude converts to a float without
    overflow. *)
Lemma float_of_int_exact (n : Z) :
  Z.abs n <= 2 ^ 53 -> float_of_int n = inr (Z2float n).
Proof.
  intros Hn. unfold float_of_int. cbv zeta.
  assert (Hinf : is_infinity (Z2float n) = false); [| now rewrite Hinf].
  unfold is_infinity. rewrite FloatAxioms.eqb_spec, abs_spec. unfold Z2float.
  pose proof (binary_normalize_small n Hn) as Sn.
  destruct n as [| p | p].
  - rewrite Sn. reflexivity.
  - destruct Sn as (m & e & -> & Hc).
    rewrite (Prim2SF_SF2Prim _ (canon_valid false _ _ _ Hc)). reflexivity.
  - destruct Sn as (m & e & -> & Hc).
    rewrite (Prim2SF_SF2Prim _ (canon_valid true _ _ _ Hc)). reflexivity.
Qed.

(** For a bracket and a headcount up to 2^53 in magnitude the test of the
    code is the test on the integers. *)
Lemma in_bracket_exact (row : PlanRow) (hc : Z) :
  Z.abs (MinHC row) <= 2 ^ 53 -> Z.abs (MaxHC row) <= 2 ^ 53 ->
  Z.abs hc <= 2 ^ 53 ->
  (in_bracket row hc = true <-> MinHC row <= hc <= MaxHC row).
Proof.
  intros Hmin Hmax Hhc. unfold in_bracket.
  rewrite (Z2float_leb _ _ Hmin Hhc), (Z2float_leb _ _ Hhc Hmax).
  rewrite andb_true_iff, !Z.leb_le. reflexivity.
Qed.

Example in_bracket_rounds :
  in_bracket (mkPlanRow 1 (2 ^ 53) 0 0 0 0 0 0)%float (2 ^ 53 + 1) = true.
Proof. vm_compute. reflexivity. Qed.

Lemma scan_plans_try_ok (plans : list PlanRow) (hc : Z) (f : float) :
  float_of_int hc = inr f ->
  scan_plans_try plans hc = inr (scan_plans plans hc).
Proof.
  intros Hf. destruct plans as [| r plans]; [reflexivity |].
  unfold scan_plans_try. now rewrite Hf.
Qed.

Lemma scan_plans_try_inr (plans : list PlanRow) (hc : Z)
  (found : option PlanRow) :
  scan_plans_try plans hc = inr found -> found = scan_plans plans hc.
Proof.
  destruct plans as [| r plans]; [intros H; now inversion H |].
  unfold scan_plans_try.
  destruct (float_of_int hc) as [e | f]; cbn [Py.bind Py.ret]; intros H.
  - discriminate H.
  - now inversion H.
Qed.

Lemma scan_plans_try_inl (plans : list PlanRow) (hc : Z) (e : exn) :
  scan_plans_try plans hc = inl e ->
  e = OverflowError /\ float_of_int hc = inl OverflowError /\ plans <> [].
Proof.
  destruct plans as [| r plans]; [discriminate |].
  unfold scan_plans_try.
  destruct (float_of_int hc) as [e' | f] eqn:Hf; cbn [Py.bind Py.ret];
    intros H; [| discriminate H].
  inversion H; subst. pose proof (float_of_int_exn _ _ Hf). subst.
  repeat split. discriminate.
Qed.

(** Some row of the table passes the test exactly when the scan finds
    one. *)
Lemma scan_plans_Some_iff (plans : list PlanRow) (hc : Z) :
  (exists row, scan_plans plans hc = Some row) <->
  Exists (fun r => in_bracket r hc = true) plans.
Proof.
  induction plans as [| r plans IH]; cbn.
  - split; [intros [row H]; discriminate H | intros H; inversion H].
  - destruct (in_bracket r hc) eqn:E.
    + split; [intros _; now left | intros _; now exists r].
    + rewrite IH. split; intros H; [now right |].
      inversion H; subst; [congruence | assumption].
Qed.

(** ** When calculate_costs returns costs *)

Section Request.

Variable headcount : Z.
Variables selected_city selected_plan : string.
Variables real_estate_toggle it_infra_toggle : bool.
Variables enabling_toggle technology_toggle : bool.
Variables real_estate_df it_infra_df : list CostRow.
Variable plans_df : list PlanRow.

Let run := calculate_costs headcount selected_city selected_plan
  real_estate_toggle it_infra_toggle enabling_toggle technology_toggle
  real_estate_df it_infra_df plans_df.

Let try := calculate_costs_try headcount selected_city selected_plan
  real_estate_toggle it_infra_toggle enabling_toggle technology_toggle
  real_estate_df it_infra_df plans_df.

(** A run returns costs exactly when both per-seat steps return, a
    bracket holds the headcount, and the headcount is a non-zero integer
    within the range of a float. *)
Lemma calculate_costs_Some (c : Costs) :
  run = Some c <->
  exists re it plan_row hc,
    seat_cost real_estate_toggle real_estate_df selected_city headcount
      = inr re /\
    seat_cost it_infra_toggle it_infra_df selected_city headcount
      = inr it /\
    scan_plans plans_df headcount = Some plan_row /\
    headcount <> 0 /\
    float_of_int headcount = inr hc /\
    c = costs_of selected_plan enabling_toggle technology_toggle
          re it plan_row hc.
Proof.
  subst run. unfold calculate_costs, calculate_costs_try, costs_of.
  destruct (seat_cost real_estate_toggle _ _ _) as [e1 | re]; cbn [Py.bind Py.ret].
  { split; [discriminate | intros (? & ? & ? & ? & H & _); discriminate H]. }
  destruct (seat_cost it_infra_toggle _ _ _) as [e2 | it]; cbn [Py.bind Py.ret].
  { split; [discriminate |].
    intros (? & ? & ? & ? & _ & H & _); discriminate H. }
  destruct (scan_plans_try plans_df headcount) as [e3 | found] eqn:Hscan;
    cbn [Py.bind Py.ret].
  { split; [discriminate |].
    intros (? & ? & ? & ? & _ & _ & _ & _ & H & _).
    rewrite (scan_plans_try_ok _ _ _ H) in Hscan. discriminate Hscan. }
  apply scan_plans_try_inr in Hscan. subst found.
  destruct (scan_plans plans_df headcount) as [plan_row |]; cbn [Py.bind Py.ret].
  2:{ split; [discriminate |].
      intros (? & ? & ? & ? & _ & _ & H & _); discriminate H. }
  match goal with
  | |- context [float_div_int ?t headcount] =>
      destruct (float_div_int t headcount) as [e | q] eqn:Hdiv
  end; cbn [Py.bind Py.ret].
  - split; [discriminate |].
    intros (re' & it' & row' & hc & Hre & Hit & Hrow & Hnz & Hhc & _).
    inversion Hre; inversion Hit; inversion Hrow; subst.
    assert (H : float_div_int
      (re' + it' +
         ((if enabling_toggle then enab_of_plan selected_plan row'
           else 0) +
          (if technology_toggle then tech_of_plan selected_plan row'
           else 0)))%float headcount <> inl e).
    { unfold float_div_int. rewrite Hhc. cbn.
      destruct (Z.eqb_spec headcount 0); [contradiction | discriminate]. }
    contradiction.
  - rewrite float_div_int_hours. cbn [Py.bind Py.ret]. rewrite float_div_int_rate. cbn.
    apply float_div_int_inr in Hdiv. destruct Hdiv as (Hnz & f & Hf & ->).
    split.
    + intros H. inversion H. exists re, it, plan_row, f. now repeat split.
    + intros (re' & it' & row' & hc & Hre & Hit & Hrow & _ & Hhc & ->).
      inversion Hre; inversion Hit; inversion Hrow; subst.
      rewrite Hf in Hhc. now inversion Hhc.
Qed.

(** A run that does not return costs either raised in the [try] block or
    left by the [return] of line 97. *)
Lemma calculate_costs_None :
  run = None <-> (exists e, try = inl e) \/ try = inr None.
Proof.
  subst run try. unfold calculate_costs.
  destruct (calculate_costs_try _ _ _ _ _ _ _ _ _ _) as [e | [c |]].
  - split; [intros _; left; now exists e | reflexivity].
  - split; [discriminate | intros [[e H] | H]; discriminate H].
  - split; [intros _; now right | reflexivity].
Qed.

End Request.

(** ** The per-seat categories *)

Lemma seat_cost_off (df : list CostRow) (city : string) (hc : Z) :
  seat_cost false df city hc = inr 0%float.
Proof. reflexivity. Qed.

(** An enabled category returns as soon as the city has a row and the
    headcount converts to a float. *)
Lemma seat_cost_returns (toggle : bool) (df : list CostRow) (city : string)
  (hc : Z) (f : float) :
  (toggle = true -> city_rows df city <> []) ->
  float_of_int hc = inr f ->
  exists x, seat_cost toggle df city hc = inr x.
Proof.
  intros Hcity Hf. destruct toggle; [| now exists 0%float].
  unfold seat_cost, first_cost, float_mul_int.
  destruct (city_rows df city) as [| r rs]; [now destruct Hcity |].
  cbn. rewrite Hf. cbn. now eexists.
Qed.

(** An enabled category whose table lacks the city raises [IndexError]. *)
Lemma seat_cost_absent (df : list CostRow) (city : string) (hc : Z) :
  city_rows df city = [] ->
  seat_cost true df city hc = inl IndexError.
Proof. intros H. unfold seat_cost, first_cost. now rewrite H. Qed.

Lemma seat_cost_exn (toggle : bool) (df : list CostRow) (city : string)
  (hc : Z) (e : exn) :
  seat_cost toggle df city hc = inl e ->
  toggle = true /\
  (e = IndexError /\ city_rows df city = [] \/
   e = OverflowError /\ float_of_int hc = inl OverflowError).
Proof.
  destruct toggle; [| discriminate]. intros H. split; [reflexivity |].
  unfold seat_cost, first_cost, float_mul_int in H.
  destruct (city_rows df city) as [| r rs]; cbn in H.
  - left. now inversion H.
  - right. destruct (float_of_int hc) as [e' | f] eqn:Hf; cbn in H.
    + inversion H; subst. pose proof (float_of_int_exn _ _ Hf). now subst.
    + discriminate H.
Qed.

(** With the first row of the city in hand, an enabled category costs that
    row's per-seat cost times the headcount. *)
Lemma seat_cost_first (pre post : list CostRow) (r : CostRow)
  (city : string) (hc : Z) (x : float) :
  Forall (fun y => City y <> city) pre ->
  City r = city ->
  seat_cost true (pre ++ r :: post) city hc = inr x ->
  x = (Cost_INR_PM r * Z2float hc)%float.
Proof.
  intros Hpre Hr. unfold seat_cost. rewrite (first_cost_app _ _ _ _ Hpre Hr).
  cbn. unfold float_mul_int.
  destruct (float_of_int hc) as [e | f] eqn:Hf; cbn; [discriminate |].
  intros H. inversion H. now rewrite (float_of_int_inr _ _ Hf).
Qed.

(** Sample runs: a disabled category with a table that lacks the city, and
    a run with every toggle off. *)
Example run_without_real_estate :
  option_map (fun c => (total_real_estate_cost c, total_cost c))
    (calculate_costs 10 "CityA" "Basic" false true true true
       other_city_table example_it_infra example_plans)
  = Some (0%float, 55000%float).
Proof. vm_compute. reflexivity. Qed.

Example run_all_toggles_off :
  calculate_costs 10 "CityA" "Basic" false false false false
    other_city_table other_city_table example_plans
  = Some (mkCosts 0 0 0 0 0 0)%float.
Proof. vm_compute. reflexivity. Qed.

(** ** The claims *)

(** C1. For a request with a positive headcount that some bracket holds,
    the hourly cost per head that [calculate_costs] returns is
    [(total_cost / headcount / 120) / 85], 120 being [hours_in_month] and
    85 [usd_inr_rate]; and costs are returned whenever, besides, the
    enabled city lookups find a row and the headcount fits a float. *)
Theorem hourly_cost_formula :
  forall (headcount : Z) (selected_city selected_plan : string)
    (real_estate_toggle it_infra_toggle enabling_toggle technology_toggle : bool)
    (real_estate_df it_infra_df : list CostRow) (plans_df : list PlanRow)
    (plan_row : PlanRow),
    0 < headcount ->
    scan_plans plans_df headcount = Some plan_row ->
    hours_in_month = 120 /\ usd_inr_rate = 85 /\
    (forall c,
        calculate_costs headcount selected_city selected_plan
          real_estate_toggle it_infra_toggle enabling_toggle
          technology_toggle real_estate_df it_infra_df plans_df = Some c ->
        hourly_cost_per_head_usd c =
        (total_cost c / Z2float headcount / 120 / 85)%float) /\
    (forall hc,
        float_of_int headcount = inr hc ->
        (real_estate_toggle = true ->
         city_rows real_estate_df selected_city <> []) ->
        (it_infra_toggle = true ->
         city_rows it_infra_df selected_city <> []) ->
        exists c,
          calculate_costs headcount selected_city selected_plan
            real_estate_toggle it_infra_toggle enabling_toggle
            technology_toggle real_estate_df it_infra_df plans_df = Some c).
Proof.
  intros hc city plan t1 t2 t3 t4 re_df it_df plans row Hpos Hrow.
  split; [reflexivity |]. split; [reflexivity |]. split.
  - intros c Hc. apply calculate_costs_Some in Hc.
    destruct Hc as (re & it & row' & f & _ & _ & _ & _ & Hf & ->).
    apply float_of_int_inr in Hf. subst f. reflexivity.
  - intros f Hf Hre Hit.
    destruct (seat_cost_returns t1 re_df city hc f Hre Hf) as [re Ere].
    destruct (seat_cost_returns t2 it_df city hc f Hit Hf) as [it Eit].
    exists (costs_of plan t3 t4 re it row f).
    apply calculate_costs_Some. exists re, it, row, f.
    repeat split; try assumption. lia.
Qed.

Lemma hourly_cost_formula_witness :
  exists c,
    calculate_costs 10 "CityA" "Basic" true true true true
      example_real_estate example_it_infra example_plans = Some c /\
    hourly_cost_per_head_usd c =
    (total_cost c / Z2float 10 / 120 / 85)%float.
Proof.
  destruct (hourly_cost_formula 10 "CityA" "Basic" true true true true
              example_real_estate example_it_infra example_plans
              (mkPlanRow 1 100 2000 0 0 3000 0 0)%float)
    as (_ & _ & Hformula & Hreturns).
  - lia.
  - reflexivity.
  - destruct (Hreturns 10%float) as [c Hc].
    + vm_compute. reflexivity.
    + intros _. vm_compute. discriminate.
    + intros _. vm_compute. discriminate.
    + exists c. split; [exact Hc | exact (Hformula c Hc)].
Defined.

(** C2, as stated, fails.  On the fractional request the run returns
    [total_cost = 185508.2], while the sum of the four returned category
    costs, added in the order the claim writes them, is
    [185508.19999999998]: Python's [==] on the two is [False]. *)
Lemma total_cost_four_sum_differs :
  exists c,
    calculate_costs 25 "CityA" "Basic" true true true true
      fractional_real_estate fractional_it_infra fractional_plans = Some c /\
    PrimFloat.eqb (total_cost c)
      (total_real_estate_cost c + total_it_infra_cost c
       + enab_cost c + tech_cost c)%float = false /\
    total_cost c <>
      (total_real_estate_cost c + total_it_infra_cost c
       + enab_cost c + tech_cost c)%float.
Proof.
  eexists. split; [vm_compute; reflexivity |]. split.
  - vm_compute. reflexivity.
  - intros H. apply (f_equal Prim2SF) in H. vm_compute in H. discriminate H.
Qed.

(** C2, amended.  On every successful run [total_cost] is the float sum
    [(real estate + IT infrastructure) + (enabling + technology)], the two
    plan costs being added to each other first (lines 117 and 120), and a
    category whose toggle is off costs [0.0]. *)
Theorem total_cost_grouped_sum :
  forall (headcount : Z) (selected_city selected_plan : string)
    (real_estate_toggle it_infra_toggle enabling_toggle technology_toggle : bool)
    (real_estate_df it_infra_df : list CostRow) (plans_df : list PlanRow)
    (c : Costs),
    calculate_costs headcount selected_city selected_plan
      real_estate_toggle it_infra_toggle enabling_toggle technology_toggle
      real_estate_df it_infra_df plans_df = Some c ->
    total_cost c =
      ((total_real_estate_cost c + total_it_infra_cost c)
       + (enab_cost c + tech_cost c))%float /\
    (real_estate_toggle = false -> total_real_estate_cost c = 0%float) /\
    (it_infra_toggle = false -> total_it_infra_cost c = 0%float) /\
    (enabling_toggle = false -> enab_cost c = 0%float) /\
    (technology_toggle = false -> tech_cost c = 0%float).
Proof.
  intros hc city plan t1 t2 t3 t4 re_df it_df plans c Hc.
  apply calculate_costs_Some in Hc.
  destruct Hc as (re & it & row & f & Hre & Hit & _ & _ & _ & ->).
  unfold costs_of; cbn. repeat split.
  - intros ->. rewrite seat_cost_off in Hre. now inversion Hre.
  - intros ->. rewrite seat_cost_off in Hit. now inversion Hit.
  - now intros ->.
  - now intros ->.
Qed.

Lemma total_cost_grouped_sum_witness :
  exists c,
    calculate_costs 25 "CityA" "Basic" true false true false
      fractional_real_estate fractional_it_infra fractional_plans = Some c /\
    total_cost c =
      ((total_real_estate_cost c + total_it_infra_cost c)
       + (enab_cost c + tech_cost c))%float /\
    total_it_infra_cost c = 0%float /\
    tech_cost c = 0%float.
Proof.
  eexists. split; [vm_compute; reflexivity |].
  destruct (total_cost_grouped_sum 25 "CityA" "Basic" true false true false
              fractional_real_estate fractional_it_infra fractional_plans _
              eq_refl) as (Hsum & _ & Hit & _ & Htech).
  split; [exact Hsum |]. split; [exact (Hit eq_refl) | exact (Htech eq_refl)].
Defined.

(** C3. The worked example: CityA at 10000 per seat for real estate and
    5000 for IT infrastructure, one bracket [1,100] with Basic costs 2000
    and 3000, 10 heads, plan Basic, every toggle on.  The run returns
    100000, 50000, 2000, 3000, total 155000, and an hourly rate that is the
    float quotient [155000 / 10 / 120 / 85], within 0.0000005 of 1.519608.
    The bracket's Premium and Advance cells do not matter. *)
Theorem worked_example :
  forall enab_premium enab_advance tech_premium tech_advance : float,
  exists hourly,
    calculate_costs 10 "CityA" "Basic" true true true true
      [mkCostRow "Tier 1" "CityA" 10000%float]
      [mkCostRow "Tier1" "CityA" 5000%float]
      [mkPlanRow 1 100 2000%float enab_premium enab_advance
         3000%float tech_premium tech_advance]
    = Some (mkCosts 100000 50000 2000 3000 155000 hourly)%float /\
    hourly = (155000 / 10 / 120 / 85)%float /\
    (1.5196075 <=? hourly)%float = true /\
    (hourly <=? 1.5196085)%float = true.
Proof.
  intros ep ea tp ta. exists 1.5196078431372548%float.
  split; [vm_compute; reflexivity |].
  split; [vm_compute; reflexivity |].
  split; vm_compute; reflexivity.
Qed.

(** C4, as stated, fails.  Of the brackets [1, 2^53] and
    [2^53 + 1, 2^60], only the second contains the headcount 2^53 + 1, yet
    the scan selects the first: in the float64 row the bound 2^53 and the
    headcount 2^53 + 1 are the same number, and the run is priced from the
    first bracket. *)
Lemma bracket_scan_rounds_headcount :
  Forall2 (fun r holds => (MinHC r <= 2 ^ 53 + 1 <= MaxHC r) <-> holds)
    wide_plans [False; True] /\
  scan_plans wide_plans (2 ^ 53 + 1) = Some (hd example_plan_row wide_plans) /\
  option_map enab_cost
    (calculate_costs (2 ^ 53 + 1) "CityA" "Basic" false false true true
       [] [] wide_plans) = Some 2000%float.
Proof.
  split; [| split].
  - unfold wide_plans, plans_up_to_2_53. cbn [app].
    repeat constructor; cbn [MinHC MaxHC]; try lia; intros [H1 H2]; lia.
  - vm_compute. reflexivity.
  - vm_compute. reflexivity.
Qed.

(** C4, amended.  Bracket selection is first-match in table order on the
    test the code makes: when no bracket before [plan_row] passes the test
    for the headcount and [plan_row] does, the scan selects [plan_row],
    whatever follows it, and a run whose other steps succeed returns costs
    whose enabling and technology costs are read from that row.  The test
    compares the bounds and the headcount as float64 numbers; it is the
    test on the integers when the three are at most 2^53 in magnitude.  In
    particular, with the overlapping brackets [1,50] then [40,100] and 45
    heads, the first of the two is selected. *)
Theorem bracket_first_match :
  forall (before after : list PlanRow) (plan_row : PlanRow)
    (headcount : Z) (selected_city selected_plan : string)
    (real_estate_toggle it_infra_toggle enabling_toggle technology_toggle : bool)
    (real_estate_df it_infra_df : list CostRow),
    Forall (fun r => in_bracket r headcount = false) before ->
    in_bracket plan_row headcount = true ->
    scan_plans (before ++ plan_row :: after) headcount = Some plan_row /\
    (forall re it hc,
        seat_cost real_estate_toggle real_estate_df selected_city headcount
          = inr re ->
        seat_cost it_infra_toggle it_infra_df selected_city headcount
          = inr it ->
        headcount <> 0 ->
        float_of_int headcount = inr hc ->
        exists c,
          calculate_costs headcount selected_city selected_plan
            real_estate_toggle it_infra_toggle enabling_toggle
            technology_toggle real_estate_df it_infra_df
            (before ++ plan_row :: after) = Some c /\
          enab_cost c =
            (if enabling_toggle then enab_of_plan selected_plan plan_row
             else 0%float) /\
          tech_cost c =
            (if technology_toggle then tech_of_plan selected_plan plan_row
             else 0%float)) /\
    (forall r,
        Z.abs (MinHC r) <= 2 ^ 53 -> Z.abs (MaxHC r) <= 2 ^ 53 ->
        Z.abs headcount <= 2 ^ 53 ->
        (in_bracket r headcount = true <->
         MinHC r <= headcount <= MaxHC r)) /\
    (forall (first second : PlanRow) (rest : list PlanRow),
        MinHC first = 1 -> MaxHC first = 50 ->
        MinHC second = 40 -> MaxHC second = 100 ->
        scan_plans (first :: second :: rest) 45 = Some first).
Proof.
  intros pre post row hc city plan t1 t2 t3 t4 re_df it_df Hpre Hrow.
  pose proof (scan_plans_app pre post row hc Hpre Hrow) as Hscan.
  split; [exact Hscan |]. split; [| split].
  - intros re it f Hre Hit Hnz Hf.
    exists (costs_of plan t3 t4 re it row f). split; [| now split].
    apply calculate_costs_Some. exists re, it, row, f. now repeat split.
  - intros r Hmin Hmax Hhc. now apply in_bracket_exact.
  - intros r1 r2 rest Hmin1 Hmax1 _ _.
    apply (scan_plans_app [] (r2 :: rest) r1 45); [constructor |].
    apply in_bracket_exact; rewrite ?Hmin1, ?Hmax1; cbn; lia.
Qed.

Lemma bracket_first_match_witness :
  scan_plans overlapping_plans 45 = Some (hd example_plan_row
                                            overlapping_plans) /\
  exists c,
    calculate_costs 45 "CityA" "Basic" true true true true
      example_real_estate example_it_infra overlapping_plans = Some c /\
    enab_cost c = 2000%float /\ tech_cost c = 3000%float.
Proof.
  destruct (bracket_first_match [] (tl overlapping_plans)
              (hd example_plan_row overlapping_plans)
              45 "CityA" "Basic" true true true true
              example_real_estate example_it_infra)
    as (Hscan & Hcosts & _ & _).
  - constructor.
  - vm_compute. reflexivity.
  - split; [exact Hscan |].
    apply (Hcosts 450000%float 225000%float 45%float).
    + vm_compute. reflexivity.
    + vm_compute. reflexivity.
    + discriminate.
    + vm_compute. reflexivity.
Defined.

(** C5, as stated, fails.  No bracket of the table [1, 2^53] contains the
    headcount 2^53 + 1, yet the run returns costs: the test of the code
    rounds the headcount to float64, where it is 2^53. *)
Lemma no_bracket_yet_costs :
  Forall (fun r => ~ (MinHC r <= 2 ^ 53 + 1 <= MaxHC r)) plans_up_to_2_53 /\
  exists c,
    calculate_costs (2 ^ 53 + 1) "CityA" "Basic" false false true true
      [] [] plans_up_to_2_53 = Some c.
Proof.
  split.
  - repeat constructor. cbn [MinHC MaxHC]. intros [H1 H2]. lia.
  - eexists. vm_compute. reflexivity.
Qed.

(** C5, amended.  When no bracket passes the test of the code for the
    headcount, the whole run fails, with no partial result, whatever the
    four toggles are: an earlier step raised, or the first comparison
    raised on a headcount beyond the floats, or the run leaves by the
    [return] of line 97.  The test compares the bounds and the headcount
    as float64 numbers; when the headcount and the bounds are at most 2^53
    in magnitude it is the test on the integers, so that the run fails
    when no bracket contains the headcount. *)
Theorem no_bracket_fails :
  forall (headcount : Z) (selected_city selected_plan : string)
    (real_estate_toggle it_infra_toggle enabling_toggle technology_toggle : bool)
    (real_estate_df it_infra_df : list CostRow) (plans_df : list PlanRow),
    Forall (fun r => in_bracket r headcount = false) plans_df \/
    (Z.abs headcount <= 2 ^ 53 /\
     Forall (fun r => Z.abs (MinHC r) <= 2 ^ 53 /\
                      Z.abs (MaxHC r) <= 2 ^ 53 /\
                      ~ (MinHC r <= headcount <= MaxHC r)) plans_df) ->
    calculate_costs headcount selected_city selected_plan
      real_estate_toggle it_infra_toggle enabling_toggle technology_toggle
      real_estate_df it_infra_df plans_df = None /\
    (forall re it,
        seat_cost real_estate_toggle real_estate_df selected_city headcount
          = inr re ->
        seat_cost it_infra_toggle it_infra_df selected_city headcount
          = inr it ->
        calculate_costs_try headcount selected_city selected_plan
          real_estate_toggle it_infra_toggle enabling_toggle
          technology_toggle real_estate_df it_infra_df plans_df
        = inr None \/
        float_of_int headcount = inl OverflowError /\
        calculate_costs_try headcount selected_city selected_plan
          real_estate_toggle it_infra_toggle enabling_toggle
          technology_toggle real_estate_df it_infra_df plans_df
        = inl OverflowError).
Proof.
  intros hc city plan t1 t2 t3 t4 re_df it_df plans Hcases.
  assert (Hnone : Forall (fun r => in_bracket r hc = false) plans).
  { destruct Hcases as [H | [Hhc H]]; [exact H |].
    eapply Forall_impl; [| exact H]. intros r (Hmin & Hmax & Hout).
    destruct (in_bracket r hc) eqn:E; [| reflexivity].
    apply (in_bracket_exact r hc Hmin Hmax Hhc) in E. contradiction. }
  assert (Hscan : scan_plans plans hc = None) by now apply scan_plans_None.
  assert (Htry : forall re it,
             seat_cost t1 re_df city hc = inr re ->
             seat_cost t2 it_df city hc = inr it ->
             calculate_costs_try hc city plan t1 t2 t3 t4 re_df it_df plans
               = inr None \/
             float_of_int hc = inl OverflowError /\
             calculate_costs_try hc city plan t1 t2 t3 t4 re_df it_df plans
               = inl OverflowError).
  { intros re it Hre Hit. unfold calculate_costs_try. rewrite Hre, Hit.
    cbn [Py.bind Py.ret].
    destruct (scan_plans_try plans hc) as [e | found] eqn:E.
    - apply scan_plans_try_inl in E. destruct E as (-> & Hov & _).
      right. now split.
    - apply scan_plans_try_inr in E. rewrite Hscan in E. subst found.
      now left. }
  split; [| exact Htry].
  unfold calculate_costs.
  destruct (seat_cost t1 re_df city hc) as [e | re] eqn:Hre.
  { unfold calculate_costs_try. now rewrite Hre. }
  destruct (seat_cost t2 it_df city hc) as [e | it] eqn:Hit.
  { unfold calculate_costs_try. now rewrite Hre, Hit. }
  destruct (Htry re it eq_refl eq_refl) as [-> | [_ ->]]; reflexivity.
Qed.

Lemma no_bracket_fails_witness :
  calculate_costs 500 "CityA" "Basic" false false false false
    example_real_estate example_it_infra example_plans = None /\
  calculate_costs 500 "CityA" "Basic" true true true true
    example_real_estate example_it_infra example_plans = None.
Proof.
  split.
  - apply (no_bracket_fails 500 "CityA" "Basic" false false false false
             example_real_estate example_it_infra example_plans).
    right. split; [cbn; lia |]. repeat constructor; cbn; lia.
  - apply (no_bracket_fails 500 "CityA" "Basic" true true true true
             example_real_estate example_it_infra example_plans).
    left. repeat constructor.
Defined.



(** C7, as stated, fails.  With 0 heads and a bracket that holds 0, nothing
    rejects the request before the arithmetic: the run reaches
    [total_cost / headcount] (line 125), which divides by zero and raises
    [ZeroDivisionError]. *)
Lemma headcount_zero_reaches_division :
  calculate_costs_try 0 "CityA" "Basic" true true true true
    example_real_estate example_it_infra plans_from_zero
  = inl ZeroDivisionError.
Proof. vm_compute. reflexivity. Qed.

(** C7, amended.  A request with 0 heads always fails: the run returns the
    tuple of [None].  No validation rejects it beforehand; when the
    per-seat steps return and a bracket holds 0, the failure is the
    [ZeroDivisionError] of the division by the headcount, caught by the
    handler. *)
Theorem headcount_zero_fails :
  forall (selected_city selected_plan : string)
    (real_estate_toggle it_infra_toggle enabling_toggle technology_toggle : bool)
    (real_estate_df it_infra_df : list CostRow) (plans_df : list PlanRow),
    calculate_costs 0 selected_city selected_plan
      real_estate_toggle it_infra_toggle enabling_toggle technology_toggle
      real_estate_df it_infra_df plans_df = None /\
    (forall re it plan_row,
        seat_cost real_estate_toggle real_estate_df selected_city 0
          = inr re ->
        seat_cost it_infra_toggle it_infra_df selected_city 0 = inr it ->
        scan_plans plans_df 0 = Some plan_row ->
        calculate_costs_try 0 selected_city selected_plan
          real_estate_toggle it_infra_toggle enabling_toggle
          technology_toggle real_estate_df it_infra_df plans_df
        = inl ZeroDivisionError).
Proof.
  intros city plan t1 t2 t3 t4 re_df it_df plans. split.
  - destruct (calculate_costs 0 city plan t1 t2 t3 t4 re_df it_df plans)
      as [c |] eqn:Hc; [| reflexivity].
    apply calculate_costs_Some in Hc.
    destruct Hc as (? & ? & ? & ? & _ & _ & _ & Hnz & _). now contradiction Hnz.
  - intros re it row Hre Hit Hrow. unfold calculate_costs_try.
    rewrite Hre, Hit. cbn [Py.bind Py.ret].
    rewrite (scan_plans_try_ok plans 0 0%float) by (vm_compute; reflexivity).
    cbn [Py.bind Py.ret]. rewrite Hrow.
    now rewrite float_div_int_zero.
Qed.

(** C8, as stated, fails.  The plan name "Gold" is none of Basic, Premium,
    Advance, yet the run returns costs: it takes the [else] branches of
    lines 105 and 114 and prices the request with the bracket's Advance
    cells, 2200 and 3200. *)
Lemma unknown_plan_is_priced :
  exists c,
    calculate_costs 10 "CityA" "Gold" true true true true
      example_real_estate example_it_infra overlapping_plans = Some c /\
    enab_cost c = 2200%float /\
    tech_cost c = 3200%float /\
    total_cost c = 155400%float.
Proof. eexists. split; [vm_compute; reflexivity |]. now repeat split. Qed.

Lemma enab_of_plan_else (plan : string) (row : PlanRow) :
  plan <> "Basic" -> plan <> "Premium" ->
  enab_of_plan plan row = Enab_Advance row.
Proof.
  intros Hb Hp. unfold enab_of_plan.
  apply String.eqb_neq in Hb, Hp. now rewrite Hb, Hp.
Qed.

Lemma tech_of_plan_else (plan : string) (row : PlanRow) :
  plan <> "Basic" -> plan <> "Premium" ->
  tech_of_plan plan row = Tech_Advance row.
Proof.
  intros Hb Hp. unfold tech_of_plan.
  apply String.eqb_neq in Hb, Hp. now rewrite Hb, Hp.
Qed.

Lemma calculate_costs_else_plan :
  forall (hc : Z) (city plan : string) (t1 t2 t3 t4 : bool)
    (re_df it_df : list CostRow) (plans : list PlanRow),
    plan <> "Basic" -> plan <> "Premium" ->
    calculate_costs hc city plan t1 t2 t3 t4 re_df it_df plans =
    calculate_costs hc city "Advance" t1 t2 t3 t4 re_df it_df plans.
Proof.
  intros hc city plan t1 t2 t3 t4 re_df it_df plans Hb Hp.
  unfold calculate_costs, calculate_costs_try.
  destruct (seat_cost t1 re_df city hc) as [e | re]; [reflexivity |].
  destruct (seat_cost t2 it_df city hc) as [e | it]; [reflexivity |].
  cbn [Py.bind Py.ret].
  destruct (scan_plans_try plans hc) as [e | [row |]]; try reflexivity.
  cbn [Py.bind Py.ret].
  rewrite (enab_of_plan_else plan row Hb Hp).
  rewrite (tech_of_plan_else plan row Hb Hp).
  reflexivity.
Qed.

(** C8, amended.  A plan name that is neither Basic nor Premium is not
    rejected: the request is priced exactly as under the plan Advance, and
    a run whose steps succeed returns costs whose enabling and technology
    costs are the [Enab_Advance] and [Tech_Advance] cells of the selected
    bracket. *)
Theorem unknown_plan_priced_as_advance :
  forall (headcount : Z) (selected_city selected_plan : string)
    (real_estate_toggle it_infra_toggle enabling_toggle technology_toggle : bool)
    (real_estate_df it_infra_df : list CostRow) (plans_df : list PlanRow),
    selected_plan <> "Basic" ->
    selected_plan <> "Premium" ->
    calculate_costs headcount selected_city selected_plan
      real_estate_toggle it_infra_toggle enabling_toggle technology_toggle
      real_estate_df it_infra_df plans_df =
    calculate_costs headcount selected_city "Advance"
      real_estate_toggle it_infra_toggle enabling_toggle technology_toggle
      real_estate_df it_infra_df plans_df /\
    forall re it plan_row hc,
      seat_cost real_estate_toggle real_estate_df selected_city headcount
        = inr re ->
      seat_cost it_infra_toggle it_infra_df selected_city headcount
        = inr it ->
      scan_plans plans_df headcount = Some plan_row ->
      headcount <> 0 ->
      float_of_int headcount = inr hc ->
      exists c,
        calculate_costs headcount selected_city selected_plan
          real_estate_toggle it_infra_toggle enabling_toggle
          technology_toggle real_estate_df it_infra_df plans_df = Some c /\
        enab_cost c =
          (if enabling_toggle then Enab_Advance plan_row else 0%float) /\
        tech_cost c =
          (if technology_toggle then Tech_Advance plan_row else 0%float).
Proof.
  intros hc city plan t1 t2 t3 t4 re_df it_df plans Hb Hp.
  split; [now apply calculate_costs_else_plan |].
  intros re it row f Hre Hit Hrow Hnz Hf.
  exists (costs_of plan t3 t4 re it row f). split.
  - apply calculate_costs_Some. exists re, it, row, f. now repeat split.
  - unfold costs_of. cbn [enab_cost tech_cost].
    rewrite (enab_of_plan_else plan row Hb Hp).
    rewrite (tech_of_plan_else plan row Hb Hp). now split.
Qed.

Lemma unknown_plan_priced_as_advance_witness :
  calculate_costs 10 "CityA" "Gold" true true true true
    example_real_estate example_it_infra overlapping_plans =
  calculate_costs 10 "CityA" "Advance" true true true true
    example_real_estate example_it_infra overlapping_plans /\
  exists c,
    calculate_costs 10 "CityA" "Gold" true true true true
      example_real_estate example_it_infra overlapping_plans = Some c /\
    enab_cost c = 2200%float /\ tech_cost c = 3200%float.
Proof.
  destruct (unknown_plan_priced_as_advance 10 "CityA" "Gold"
              true true true true
              example_real_estate example_it_infra overlapping_plans)
    as [Hsame Hcosts].
  - discriminate.
  - discriminate.
  - split; [exact Hsame |].
    apply (Hcosts 100000%float 50000%float
             (hd example_plan_row overlapping_plans) 10%float).
    + vm_compute. reflexivity.
    + vm_compute. reflexivity.
    + vm_compute. reflexivity.
    + discriminate.
    + vm_compute. reflexivity.
Defined.

Lemma city_rows_retier (f : CostRow -> string) (df : list CostRow)
  (city : string) :
  map Cost_INR_PM (city_rows (retier f df) city) =
  map Cost_INR_PM (city_rows df city).
Proof.
  unfold city_rows, retier. induction df as [| r df IH]; cbn; [reflexivity |].
  destruct (String.eqb (City r) city); cbn; now rewrite IH.
Qed.

Lemma first_cost_retier (f : CostRow -> string) (df : list CostRow)
  (city : string) :
  first_cost (retier f df) city = first_cost df city.
Proof. unfold first_cost. now rewrite city_rows_retier. Qed.




(** C10, as stated, fails.  With both per-seat toggles off, tables
    without the city, and the bracket [0,100] holding the headcount 0, no
    enabled lookup is left to fail and the bracket match succeeds, yet the
    run fails: it divides by the headcount. *)
Lemma toggle_off_zero_headcount_fails :
  city_absent other_city_table "CityA" /\
  scan_plans plans_from_zero 0 = Some (hd example_plan_row plans_from_zero) /\
  calculate_costs 0 "CityA" "Basic" false false true true
    other_city_table other_city_table plans_from_zero = None.
Proof.
  split; [| split].
  - repeat constructor; cbn; discriminate.
  - vm_compute. reflexivity.
  - vm_compute. reflexivity.
Qed.

(** C10, amended.  A category whose toggle is off never reads its table:
    the run is the same for every real-estate table when the real-estate
    toggle is off, and for every IT-infrastructure table when that toggle
    is off, so a table without the requested city does no harm; the
    category's cost is exactly [0.0]; and the run returns costs as soon as
    the other category, if enabled, finds its city, a bracket passes the
    range test for the headcount, and the headcount is a non-zero integer
    within the floats. *)
Theorem toggle_off_table_unused :
  forall (headcount : Z) (selected_city selected_plan : string)
    (enabling_toggle technology_toggle : bool) (plans_df : list PlanRow),
    (forall toggle df df' other_df,
        calculate_costs headcount selected_city selected_plan
          false toggle enabling_toggle technology_toggle
          df other_df plans_df =
        calculate_costs headcount selected_city selected_plan
          false toggle enabling_toggle technology_toggle
          df' other_df plans_df) /\
    (forall toggle df df' other_df,
        calculate_costs headcount selected_city selected_plan
          toggle false enabling_toggle technology_toggle
          other_df df plans_df =
        calculate_costs headcount selected_city selected_plan
          toggle false enabling_toggle technology_toggle
          other_df df' plans_df) /\
    (forall toggle df other_df c,
        calculate_costs headcount selected_city selected_plan
          false toggle enabling_toggle technology_toggle
          df other_df plans_df = Some c ->
        total_real_estate_cost c = 0%float) /\
    (forall toggle df other_df c,
        calculate_costs headcount selected_city selected_plan
          toggle false enabling_toggle technology_toggle
          other_df df plans_df = Some c ->
        total_it_infra_cost c = 0%float) /\
    (forall toggle df other_df plan_row hc,
        (toggle = true -> city_rows other_df selected_city <> []) ->
        scan_plans plans_df headcount = Some plan_row ->
        headcount <> 0 ->
        float_of_int headcount = inr hc ->
        (exists c,
            calculate_costs headcount selected_city selected_plan
              false toggle enabling_toggle technology_toggle
              df other_df plans_df = Some c /\
            total_real_estate_cost c = 0%float) /\
        (exists c,
            calculate_costs headcount selected_city selected_plan
              toggle false enabling_toggle technology_toggle
              other_df df plans_df = Some c /\
            total_it_infra_cost c = 0%float)).
Proof.
  intros hc city plan t3 t4 plans.
  split; [| split; [| split; [| split]]].
  - intros toggle df df' other. reflexivity.
  - intros toggle df df' other. reflexivity.
  - intros toggle df other c Hc. apply calculate_costs_Some in Hc.
    destruct Hc as (re & it & r & f & Hre & _ & _ & _ & _ & ->).
    rewrite seat_cost_off in Hre. now inversion Hre.
  - intros toggle df other c Hc. apply calculate_costs_Some in Hc.
    destruct Hc as (re & it & r & f & _ & Hit & _ & _ & _ & ->).
    rewrite seat_cost_off in Hit. now inversion Hit.
  - intros toggle df other row f Hcity Hrow Hnz Hf.
    destruct (seat_cost_returns toggle other city hc f Hcity Hf) as [x Hx].
    split.
    + exists (costs_of plan t3 t4 0%float x row f).
      split; [| reflexivity].
      apply calculate_costs_Some. exists 0%float, x, row, f.
      now repeat split.
    + exists (costs_of plan t3 t4 x 0%float row f).
      split; [| reflexivity].
      apply calculate_costs_Some. exists x, 0%float, row, f.
      now repeat split.
Qed.

(** * The rest of app.py *)

(** ** clean_tier_name *)

Lemma isdecimal_not_space (c : ascii) : isdecimal c = true -> isspace c = false.
Proof.
  unfold isdecimal, isspace. cbv zeta.
  generalize (N_of_ascii c). intros n H.
  apply andb_true_iff in H. destruct H as [H1 H2].
  apply N.leb_le in H1, H2.
  repeat (apply orb_false_iff; split);
    try (apply andb_false_iff);
    try (apply N.eqb_neq; lia).
  - right. apply N.leb_gt. lia.
  - right. apply N.leb_gt. lia.
Qed.

Lemma lstrip_spaces (lead s : string) :
  all_of isspace lead = true -> lstrip (lead ++ s)%string = lstrip s.
Proof.
  induction lead as [| c lead IH]; cbn; [reflexivity |].
  intros H. apply andb_true_iff in H. destruct H as [Hc Hl].
  rewrite Hc. now apply IH.
Qed.

Lemma rstrip_spaces_only (trail : string) :
  all_of isspace trail = true -> rstrip trail = EmptyString.
Proof.
  induction trail as [| c trail IH]; cbn; [reflexivity |].
  intros H. apply andb_true_iff in H. destruct H as [Hc Hl].
  rewrite (IH Hl). now rewrite Hc.
Qed.

Lemma rstrip_spaces (s trail : string) :
  all_of isspace trail = true -> rstrip (s ++ trail)%string = rstrip s.
Proof.
  intros H. induction s as [| c s IH]; cbn.
  - rewrite (rstrip_spaces_only _ H). reflexivity.
  - now rewrite IH.
Qed.

Lemma rstrip_keeps (s : string) (c : ascii) (t : string) :
  isspace c = false ->
  all_of (fun x => negb (isspace x)) t = true ->
  rstrip (s ++ String c t)%string = (s ++ String c t)%string.
Proof.
  intros Hc Ht.
  assert (Hbase : forall t c, isspace c = false ->
            all_of (fun x => negb (isspace x)) t = true ->
            rstrip (String c t) = String c t).
  { clear. induction t as [| d t IH]; intros c Hc Ht; cbn.
    - now rewrite Hc.
    - cbn in Ht. apply andb_true_iff in Ht. destruct Ht as [Hd Ht].
      apply negb_true_iff in Hd.
      change (rstrip (String d t)) with (rstrip (String d t)).
      pose proof (IH d Hd Ht) as E. cbn in E. rewrite E. reflexivity. }
  induction s as [| d s IH].
  - cbn [append]. now apply Hbase.
  - cbn [append rstrip]. rewrite IH. destruct s; reflexivity.
Qed.

Lemma string_app_assoc (a b c : string) :
  ((a ++ b) ++ c)%string = (a ++ (b ++ c))%string.
Proof. induction a as [| x a IH]; cbn; [reflexivity | now rewrite IH]. Qed.

Lemma string_app_nil (a : string) : (a ++ "")%string = a.
Proof. induction a as [| x a IH]; cbn; [reflexivity | now rewrite IH]. Qed.

Lemma digits_not_spaces (ds : string) :
  all_of isdecimal ds = true ->
  all_of (fun x => negb (isspace x)) ds = true.
Proof.
  induction ds as [| d ds IH]; cbn; [reflexivity |].
  intros H. apply andb_true_iff in H. destruct H as [Hd Hds].
  rewrite (isdecimal_not_space _ Hd). cbn. now apply IH.
Qed.

Lemma sub_spaces_digits (b : bool) (ds : string) :
  all_of isdecimal ds = true -> sub_spaces b ds = ds.
Proof.
  revert b. induction ds as [| d ds IH]; intros b; cbn; [reflexivity |].
  intros H. apply andb_true_iff in H. destruct H as [Hd Hds].
  rewrite (isdecimal_not_space _ Hd). now rewrite IH.
Qed.

Lemma sub_spaces_run (ws s : string) :
  all_of isspace ws = true ->
  sub_spaces true (ws ++ s)%string = sub_spaces true s.
Proof.
  induction ws as [| c ws IH]; cbn; [reflexivity |].
  intros H. apply andb_true_iff in H. destruct H as [Hc Hws].
  rewrite Hc. now apply IH.
Qed.

Lemma skip_all (p : ascii -> bool) (ds s : string) :
  all_of p ds = true -> skip p (ds ++ s)%string = skip p s.
Proof.
  induction ds as [| d ds IH]; cbn; [reflexivity |].
  intros H. apply andb_true_iff in H. destruct H as [Hd Hds].
  rewrite Hd. now apply IH.
Qed.

Lemma match_tier_canonical (ds : string) :
  ds <> EmptyString -> all_of isdecimal ds = true ->
  match_tier ("Tier " ++ ds)%string = true.
Proof.
  intros Hne Hds. destruct ds as [| d ds]; [now contradiction Hne |].
  cbn in Hds. apply andb_true_iff in Hds. destruct Hds as [Hd Hds].
  cbn. rewrite (isdecimal_not_space _ Hd). cbn. rewrite Hd. cbn.
  pose proof (skip_all isdecimal ds EmptyString Hds) as E.
  cbn in E. replace (ds ++ "")%string with ds in E.
  - now rewrite E.
  - clear. induction ds as [| x ds IH]; cbn; [reflexivity | now rewrite <- IH].
Qed.

Lemma clean_tier_text_canonical (lead ws ds trail : string) :
  all_of isspace lead = true ->
  all_of isspace ws = true -> ws <> EmptyString ->
  all_of isdecimal ds = true -> ds <> EmptyString ->
  all_of isspace trail = true ->
  clean_tier_text (lead ++ "Tier" ++ ws ++ ds ++ trail)%string
  = ("Tier " ++ ds)%string.
Proof.
  intros Hlead Hws Hws0 Hds Hds0 Htrail.
  assert (Hstrip : strip (lead ++ "Tier" ++ ws ++ ds ++ trail)%string
                   = ("Tier" ++ ws ++ ds)%string).
  { unfold strip. rewrite (lstrip_spaces _ _ Hlead).
    change (lstrip ("Tier" ++ ws ++ ds ++ trail)%string)
      with ("Tier" ++ ws ++ ds ++ trail)%string.
    replace ("Tier" ++ ws ++ ds ++ trail)%string
      with (("Tier" ++ ws ++ ds) ++ trail)%string
      by (now rewrite !string_app_assoc).
    rewrite (rstrip_spaces _ _ Htrail).
    destruct ds as [| d ds]; [now contradiction Hds0 |].
    replace ("Tier" ++ ws ++ String d ds)%string
      with (("Tier" ++ ws) ++ String d ds)%string
      by (now rewrite !string_app_assoc).
    pose proof (digits_not_spaces _ Hds) as Hn. cbn in Hn.
    apply andb_true_iff in Hn. destruct Hn as [Hd Hn].
    apply negb_true_iff in Hd. now apply rstrip_keeps. }
  assert (Hsub : sub_spaces false ("Tier" ++ ws ++ ds)%string
                 = ("Tier " ++ ds)%string).
  { destruct ws as [| c ws]; [now contradiction Hws0 |].
    cbn in Hws. apply andb_true_iff in Hws. destruct Hws as [Hc Hws].
    cbn. rewrite Hc. rewrite (sub_spaces_run _ _ Hws).
    now rewrite (sub_spaces_digits _ _ Hds). }
  unfold clean_tier_text. cbv zeta. rewrite Hstrip, Hsub.
  now rewrite (match_tier_canonical _ Hds0 Hds).
Qed.

Lemma sub_spaces_single_spaced (b : bool) (s : string) :
  single_spaced b (sub_spaces b s) = true.
Proof.
  revert b. induction s as [| c s IH]; intros b; cbn; [reflexivity |].
  destruct (isspace c) eqn:Hc.
  - destruct b; [apply IH |]. cbn. apply IH.
  - cbn. rewrite Hc. apply IH.
Qed.

Lemma take_skip (p : ascii -> bool) (s : string) :
  s = (take p s ++ skip p s)%string /\ all_of p (take p s) = true.
Proof.
  induction s as [| c s [IH1 IH2]]; cbn; [now split |].
  destruct (p c) eqn:Hc; cbn; [| now split].
  rewrite Hc, IH2. split; [now rewrite <- IH1 | reflexivity].
Qed.

Lemma single_spaced_newline_end (b : bool) (ds : string) :
  all_of isdecimal ds = true ->
  single_spaced b (ds ++ String "010" "")%string = false.
Proof.
  revert b. induction ds as [| d ds IH]; intros b; cbn.
  - intros _. reflexivity.
  - intros H. apply andb_true_iff in H. destruct H as [Hd Hds].
    rewrite (isdecimal_not_space _ Hd). now apply IH.
Qed.

Lemma match_tier_shape (s : string) :
  single_spaced false s = true -> match_tier s = true ->
  exists ds, ds <> EmptyString /\ all_of isdecimal ds = true /\
             s = ("Tier " ++ ds)%string.
Proof.
  intros Hs Hm. unfold match_tier in Hm.
  destruct s as [| c0 s]; [discriminate |].
  destruct (Ascii.eqb_spec c0 "T") as [-> | N];
    [| destruct c0 as [[] [] [] [] [] [] [] []]; try discriminate; now contradiction N].
  destruct s as [| c1 s]; [discriminate |].
  destruct (Ascii.eqb_spec c1 "i") as [-> | N];
    [| destruct c1 as [[] [] [] [] [] [] [] []]; try discriminate; now contradiction N].
  destruct s as [| c2 s]; [discriminate |].
  destruct (Ascii.eqb_spec c2 "e") as [-> | N];
    [| destruct c2 as [[] [] [] [] [] [] [] []]; try discriminate; now contradiction N].
  destruct s as [| c3 s]; [discriminate |].
  destruct (Ascii.eqb_spec c3 "r") as [-> | N];
    [| destruct c3 as [[] [] [] [] [] [] [] []]; try discriminate; now contradiction N].
  cbn in Hs.
  apply andb_true_iff in Hm. destruct Hm as [Hsp Hm].
  destruct s as [| c s]; [discriminate |]. cbn in Hsp.
  cbn in Hs. rewrite Hsp in Hs.
  apply andb_true_iff in Hs. destruct Hs as [Hs Hrest].
  apply andb_true_iff in Hs. destruct Hs as [Hc _].
  apply Ascii.eqb_eq in Hc. subst c.
  cbn in Hm.
  assert (Hskip : skip isspace s = s).
  { destruct s as [| x s]; [reflexivity |]. cbn in Hrest. cbn.
    destruct (isspace x); [| reflexivity].
    rewrite andb_false_r in Hrest. discriminate. }
  rewrite Hskip in Hm.
  apply andb_true_iff in Hm. destruct Hm as [Hdig Hend].
  destruct (take_skip isdecimal s) as [Hsplit Hall].
  exists (take isdecimal s). split; [| split].
  - destruct s as [| x s]; [discriminate |]. cbn in Hdig. cbn. now rewrite Hdig.
  - exact Hall.
  - destruct (skip isdecimal s) as [| e [| e' tl]] eqn:Hsk; cbn in Hend.
    + rewrite string_app_nil in Hsplit. cbn. now rewrite <- Hsplit.
    + apply Ascii.eqb_eq in Hend. subst e.
      rewrite Hsplit in Hrest.
      now rewrite (single_spaced_newline_end _ _ Hall) in Hrest.
    + discriminate.
Qed.

Lemma clean_tier_text_shape (tier : string) :
  clean_tier_text tier = tier \/
  exists ds, ds <> EmptyString /\ all_of isdecimal ds = true /\
             clean_tier_text tier = ("Tier " ++ ds)%string.
Proof.
  unfold clean_tier_text. cbv zeta.
  destruct (match_tier (sub_spaces false (strip tier))) eqn:Hm; [| now left].
  right. apply match_tier_shape; [apply sub_spaces_single_spaced | exact Hm].
Qed.

Lemma clean_tier_text_idempotent (tier : string) :
  clean_tier_text (clean_tier_text tier) = clean_tier_text tier.
Proof.
  destruct (clean_tier_text_shape tier) as [E | (ds & Hne & Hds & E)].
  - now rewrite !E.
  - rewrite E.
    pose proof (clean_tier_text_canonical EmptyString " " ds EmptyString
                  eq_refl eq_refl ltac:(discriminate) Hds Hne eq_refl) as H.
    cbn in H. rewrite string_app_nil in H. exact H.
Qed.

(** The tier pattern accepts exactly the strings made of [Tier], one or
    more whitespace characters, one or more decimal digits and, possibly,
    one final newline. *)
Theorem match_tier_language :
  forall s : string,
    match_tier s = true <->
    exists ws ds tail,
      s = ("Tier" ++ ws ++ ds ++ tail)%string /\
      ws <> EmptyString /\ all_of isspace ws = true /\
      ds <> EmptyString /\ all_of isdecimal ds = true /\
      (tail = EmptyString \/ tail = String "010" EmptyString).
Proof.
  intros s. split.
  - intros Hm. unfold match_tier in Hm.
    destruct s as [| c0 s]; [discriminate |].
    destruct (Ascii.eqb_spec c0 "T") as [-> | N];
      [| destruct c0 as [[] [] [] [] [] [] [] []];
         try discriminate; now contradiction N].
    destruct s as [| c1 s]; [discriminate |].
    destruct (Ascii.eqb_spec c1 "i") as [-> | N];
      [| destruct c1 as [[] [] [] [] [] [] [] []];
         try discriminate; now contradiction N].
    destruct s as [| c2 s]; [discriminate |].
    destruct (Ascii.eqb_spec c2 "e") as [-> | N];
      [| destruct c2 as [[] [] [] [] [] [] [] []];
         try discriminate; now contradiction N].
    destruct s as [| c3 s]; [discriminate |].
    destruct (Ascii.eqb_spec c3 "r") as [-> | N];
      [| destruct c3 as [[] [] [] [] [] [] [] []];
         try discriminate; now contradiction N].
    apply andb_true_iff in Hm. destruct Hm as [Hsp Hm].
    cbv zeta in Hm. apply andb_true_iff in Hm. destruct Hm as [Hdig Hend].
    destruct (take_skip isspace s) as [Hs Hws].
    destruct (take_skip isdecimal (skip isspace s)) as [Hd Hds].
    exists (take isspace s), (take isdecimal (skip isspace s)),
      (skip isdecimal (skip isspace s)).
    repeat split.
    + cbn. do 4 f_equal. now rewrite <- Hd.
    + destruct s as [| x s]; [discriminate |]. cbn in Hsp. cbn.
      now rewrite Hsp.
    + exact Hws.
    + destruct (skip isspace s) as [| x r]; [discriminate |].
      cbn in Hdig. cbn. now rewrite Hdig.
    + exact Hds.
    + destruct (skip isdecimal (skip isspace s)) as [| e [| e' r]];
        cbn in Hend; [now left | | discriminate].
      apply Ascii.eqb_eq in Hend. subst e. now right.
  - intros (ws & ds & tail & -> & Hws0 & Hws & Hds0 & Hds & Htail).
    cbn. destruct ws as [| w ws]; [now contradiction Hws0 |].
    cbn in Hws. apply andb_true_iff in Hws. destruct Hws as [Hw Hws].
    cbn. rewrite Hw. cbn. rewrite (skip_all _ _ _ Hws).
    destruct ds as [| d ds]; [now contradiction Hds0 |].
    cbn in Hds. apply andb_true_iff in Hds. destruct Hds as [Hd Hds].
    cbn. rewrite (isdecimal_not_space _ Hd). cbn. rewrite Hd. cbn.
    rewrite (skip_all _ _ _ Hds). destruct Htail as [-> | ->]; reflexivity.
Qed.

(** A tier written as [Tier], whitespace and digits, with any whitespace
    around it, is cleaned to [Tier], one space and the same digits. *)
Theorem clean_tier_name_canonical :
  forall lead ws ds trail : string,
    all_of isspace lead = true ->
    all_of isspace ws = true -> ws <> EmptyString ->
    all_of isdecimal ds = true -> ds <> EmptyString ->
    all_of isspace trail = true ->
    clean_tier_name (Some (lead ++ "Tier" ++ ws ++ ds ++ trail)%string)
    = Some ("Tier " ++ ds)%string.
Proof.
  intros lead ws ds trail H1 H2 H3 H4 H5 H6. cbn [clean_tier_name].
  f_equal. now apply clean_tier_text_canonical.
Qed.

Lemma clean_tier_name_canonical_witness :
  clean_tier_name
    (Some ("  " ++ "Tier" ++ String "009" " " ++ "12"
           ++ String "010" "")%string)
  = Some "Tier 12".
Proof.
  apply (clean_tier_name_canonical "  " (String "009" " ") "12"
           (String "010" ""));
    try reflexivity; discriminate.
Defined.

(** Cleaning a cell twice is cleaning it once, and a cleaned cell is
    either the cell as it was (a missing cell always is) or [Tier], one
    space and digits. *)
Theorem clean_tier_name_idempotent :
  forall tier : option string,
    clean_tier_name (clean_tier_name tier) = clean_tier_name tier /\
    clean_tier_name None = None /\
    (clean_tier_name tier = tier \/
     exists ds,
       ds <> EmptyString /\ all_of isdecimal ds = true /\
       clean_tier_name tier = Some ("Tier " ++ ds)%string).
Proof.
  intros [text |]; cbn [clean_tier_name].
  - split; [now rewrite clean_tier_text_idempotent |].
    split; [reflexivity |].
    destruct (clean_tier_text_shape text) as [E | (ds & H1 & H2 & E)].
    + left. now rewrite E.
    + right. exists ds. now rewrite E.
  - repeat split. now left.
Qed.

(** ** load_data *)

Lemma has_column_In (columns : list string) (col : string) :
  has_column columns col = true <-> In col columns.
Proof.
  unfold has_column. rewrite existsb_exists. split.
  - intros (x & Hx & E). apply String.eqb_eq in E. now subst x.
  - intros H. exists col. split; [assumption | apply String.eqb_refl].
Qed.

Lemma has_all_columns (columns required : list string) :
  forallb (has_column columns) required = true <-> incl required columns.
Proof.
  rewrite forallb_forall. unfold incl.
  split; intros H c Hc; apply has_column_In; now apply H.
Qed.

(** The checks of [load_data] pass exactly when each of the three sheets
    has all its required columns; otherwise [load_data] returns its four
    [None]. *)
Theorem load_data_checks_pass_iff :
  forall real_estate_columns it_infra_columns plans_columns : list string,
    load_data_checks real_estate_columns it_infra_columns plans_columns
      = inr tt <->
    incl ["Tier"; "City"; "Cost_INR_PM"] real_estate_columns /\
    incl ["Tier"; "City"; "Cost_INR_PM"] it_infra_columns /\
    incl ["MinHC"; "MaxHC"; "Enab_Basic"; "Enab_Premium"; "Enab_Advance";
          "Tech_Basic"; "Tech_Premium"; "Tech_Advance"] plans_columns.
Proof.
  intros re it pl. unfold load_data_checks.
  destruct (has_column re "Tier") eqn:Tre; cbn [negb].
  2:{ split; [discriminate |]. intros (H & _ & _).
      assert (In "Tier" re) by (apply H; now left).
      apply has_column_In in H0. congruence. }
  destruct (has_column it "Tier") eqn:Tit; cbn [negb].
  2:{ split; [discriminate |]. intros (_ & H & _).
      assert (In "Tier" it) by (apply H; now left).
      apply has_column_In in H0. congruence. }
  unfold required_columns.
  cbn [validate_columns lookup_sheet String.eqb Ascii.eqb Bool.eqb].
  destruct (forallb (has_column re) _) eqn:Fre.
  2:{ split; [discriminate |]. intros (H & _ & _).
      apply has_all_columns in H. congruence. }
  destruct (forallb (has_column it) _) eqn:Fit.
  2:{ split; [discriminate |]. intros (_ & H & _).
      apply has_all_columns in H. congruence. }
  destruct (forallb (has_column pl) _) eqn:Fpl.
  2:{ split; [discriminate |]. intros (_ & _ & H).
      apply has_all_columns in H. congruence. }
  split; [| reflexivity]. intros _.
  repeat split; now apply has_all_columns.
Qed.

Lemma seat_cost_retier (f : CostRow -> string) (toggle : bool)
  (df : list CostRow) (city : string) (hc : Z) :
  seat_cost toggle (retier f df) city hc = seat_cost toggle df city hc.
Proof. unfold seat_cost. now rewrite first_cost_retier. Qed.

(** Cleaning the tiers of the two cost sheets, as [load_data] does,
    changes nothing in what [calculate_costs] returns. *)
Theorem clean_tiers_costs_unchanged :
  forall (headcount : Z) (selected_city selected_plan : string)
    (real_estate_toggle it_infra_toggle enabling_toggle technology_toggle : bool)
    (real_estate_df it_infra_df : list CostRow) (plans_df : list PlanRow),
    calculate_costs headcount selected_city selected_plan
      real_estate_toggle it_infra_toggle enabling_toggle technology_toggle
      (clean_tiers real_estate_df) (clean_tiers it_infra_df) plans_df =
    calculate_costs headcount selected_city selected_plan
      real_estate_toggle it_infra_toggle enabling_toggle technology_toggle
      real_estate_df it_infra_df plans_df.
Proof.
  intros. unfold calculate_costs, calculate_costs_try, clean_tiers.
  now rewrite !seat_cost_retier.
Qed.

(** ** get_plan_details *)

(** The details shown and the costs charged belong to the same plan: for
    every plan name, the name in the details is Basic, Premium or Advance,
    it is the requested name exactly when that is one of the three, and
    [calculate_costs] prices the request as it prices the plan of that
    name. *)
Theorem plan_details_match_pricing :
  forall (selected_plan : string),
    let shown := Details.name (get_plan_details selected_plan) in
    (shown = "Basic" \/ shown = "Premium" \/ shown = "Advance") /\
    (shown = selected_plan <->
     selected_plan = "Basic" \/ selected_plan = "Premium" \/
     selected_plan = "Advance") /\
    get_plan_details shown = get_plan_details selected_plan /\
    forall (headcount : Z) (selected_city : string)
      (real_estate_toggle it_infra_toggle enabling_toggle
         technology_toggle : bool)
      (real_estate_df it_infra_df : list CostRow) (plans_df : list PlanRow),
      calculate_costs headcount selected_city selected_plan
        real_estate_toggle it_infra_toggle enabling_toggle technology_toggle
        real_estate_df it_infra_df plans_df =
      calculate_costs headcount selected_city shown
        real_estate_toggle it_infra_toggle enabling_toggle technology_toggle
        real_estate_df it_infra_df plans_df.
Proof.
  intros plan shown. subst shown. unfold get_plan_details.
  destruct (String.eqb_spec plan "Basic") as [-> | Hb].
  { cbn. repeat split; auto. }
  destruct (String.eqb_spec plan "Premium") as [-> | Hp].
  { cbn. repeat split; auto. }
  cbn. split; [auto |]. split; [| split; [reflexivity |]].
  - split; [intros <-; auto |].
    intros [-> | [-> | ->]]; [now contradiction Hb | now contradiction Hp |].
    reflexivity.
  - intros. now apply calculate_costs_else_plan.
Qed.

(** ** convert_numpy_types *)

Section PyobjInd.

Variable P : pyobj -> Prop.
Hypothesis Hint : forall n, P (NpInteger n).
Hypothesis Hflo : forall x, P (NpFloating x).
Hypothesis Hoth : forall t v, P (NpOther t v).
Hypothesis Harr : forall a, P (NdArray a).
Hypothesis Hdict : forall items,
  Forall (fun kv => P (snd kv)) items -> P (PyDict items).
Hypothesis Hlist : forall items, Forall P items -> P (PyList items).
Hypothesis Htuple : forall items, P (PyTuple items).
Hypothesis Hpyint : forall n, P (PyInt n).
Hypothesis Hpyfloat : forall x, P (PyFloat x).
Hypothesis Hstr : forall s, P (PyStr s).
Hypothesis Hbool : forall b, P (PyBool b).
Hypothesis Hnone : P PyNone.


End PyobjInd.




(** An object array gives its elements back as they are, numpy scalars
    included: the result is then not converted, and a second pass changes
    it. *)
Example convert_object_array :
  let obj := NdArray (ArrAxis [ArrObject (NpInteger 1)]) in
  convert_numpy_types obj = PyList [NpInteger 1] /\
  convert_numpy_types (convert_numpy_types obj) = PyList [PyInt 1].
Proof. split; reflexivity. Qed.


(** ** The tier and city menus *)

Lemma drop_duplicates_from_In (seen values : list string) (v : string) :
  In v (drop_duplicates_from seen values) <->
  In v values /\ ~ In v seen.
Proof.
  revert seen. induction values as [| w values IH]; intros seen; cbn.
  - tauto.
  - destruct (existsb (String.eqb w) seen) eqn:E.
    + rewrite IH. apply existsb_exists in E. destruct E as (x & Hx & Hwx).
      apply String.eqb_eq in Hwx. subst x.
      split; [tauto |]. intros [[-> | H] Hn]; [contradiction | tauto].
    + assert (Hw : ~ In w seen).
      { intros Hin. apply not_true_iff_false in E. apply E.
        apply existsb_exists. exists w. split; [assumption |].
        apply String.eqb_refl. }
      cbn. rewrite IH. cbn. split.
      * intros [-> | [H Hn]]; [tauto |]. split; [tauto |]. tauto.
      * intros [[-> | H] Hn]; [tauto |].
        destruct (String.eqb_spec w v) as [-> | Hne]; [tauto |]. right. tauto.
Qed.

Lemma drop_duplicates_from_NoDup (seen values : list string) :
  NoDup (drop_duplicates_from seen values).
Proof.
  revert seen. induction values as [| w values IH]; intros seen; cbn.
  - constructor.
  - destruct (existsb (String.eqb w) seen); [apply IH |].
    constructor; [| apply IH].
    rewrite drop_duplicates_from_In. cbn. tauto.
Qed.

Lemma insert_sorted_perm (v : string) (l : list string) :
  Permutation (v :: l) (insert_sorted v l).
Proof.
  induction l as [| w l IH]; cbn; [reflexivity |].
  destruct (String.leb v w); [reflexivity |].
  rewrite perm_swap. now constructor.
Qed.

Lemma list_sort_perm (l : list string) : Permutation l (list_sort l).
Proof.
  induction l as [| v l IH]; cbn; [constructor |].
  rewrite <- insert_sorted_perm. now constructor.
Qed.

Lemma insert_sorted_Sorted (v : string) (l : list string) :
  Sorted str_le l -> Sorted str_le (insert_sorted v l).
Proof.
  induction l as [| w l IH]; cbn; intros Hs.
  - repeat constructor.
  - destruct (String.leb v w) eqn:E.
    + constructor; [assumption |]. now constructor.
    + inversion Hs as [| ? ? Hs' Hhd]; subst.
      constructor; [now apply IH |].
      assert (Hwv : str_le w v).
      { destruct (String.leb_total v w) as [H | H]; [congruence | exact H]. }
      destruct l as [| x l]; cbn.
      * now constructor.
      * destruct (String.leb v x); constructor; [assumption |].
        now inversion Hhd.
Qed.

Lemma list_sort_Sorted (l : list string) : Sorted str_le (list_sort l).
Proof.
  induction l as [| v l IH]; cbn; [constructor |].
  now apply insert_sorted_Sorted.
Qed.

Lemma unique_tiers_In (df : list CostRow) (t : string) :
  In t (unique_tiers df) <-> exists r, In r df /\ Tier r = t.
Proof.
  unfold unique_tiers.
  split.
  - intros H. apply (Permutation_in _ (Permutation_sym (list_sort_perm _))) in H.
    apply drop_duplicates_from_In in H. destruct H as [H _].
    apply in_map_iff in H. destruct H as (r & Hr & Hin). now exists r.
  - intros (r & Hin & Hr).
    apply (Permutation_in _ (list_sort_perm _)).
    apply drop_duplicates_from_In. split; [| tauto].
    apply in_map_iff. now exists r.
Qed.

Lemma tier_cities_In (df : list CostRow) (t c : string) :
  In c (tier_cities df t) <-> exists r, In r df /\ Tier r = t /\ City r = c.
Proof.
  unfold tier_cities. split.
  - intros H. apply (Permutation_in _ (Permutation_sym (list_sort_perm _))) in H.
    apply drop_duplicates_from_In in H. destruct H as [H _].
    apply in_map_iff in H. destruct H as (r & Hr & Hin).
    apply filter_In in Hin. destruct Hin as [Hin Ht].
    apply String.eqb_eq in Ht. now exists r.
  - intros (r & Hin & Ht & Hc).
    apply (Permutation_in _ (list_sort_perm _)).
    apply drop_duplicates_from_In. split; [| tauto].
    apply in_map_iff. exists r. split; [assumption |].
    apply filter_In. split; [assumption |]. now apply String.eqb_eq.
Qed.

Lemma cities_by_tier_In (df : list CostRow) (t : string) (cs : list string) :
  In (t, cs) (cities_by_tier df) <->
  In t (unique_tiers df) /\ cs = tier_cities df t.
Proof.
  unfold cities_by_tier. rewrite in_map_iff. split.
  - intros (t' & E & Hin). inversion E; subst. now split.
  - intros [Hin ->]. now exists t.
Qed.

(** The menus list the table: a city is offered under a tier exactly when
    some row of the real-estate table has that tier and that city. *)
Theorem cities_by_tier_lists_table :
  forall (real_estate_df : list CostRow) (tier city : string),
    (exists cities,
        In (tier, cities) (cities_by_tier real_estate_df) /\
        In city cities) <->
    (exists r, In r real_estate_df /\ Tier r = tier /\ City r = city).
Proof.
  intros df t c. split.
  - intros (cs & Hin & Hc). apply cities_by_tier_In in Hin.
    destruct Hin as [_ ->]. now apply tier_cities_In.
  - intros (r & Hin & Ht & Hc). exists (tier_cities df t). split.
    + apply cities_by_tier_In. split; [| reflexivity].
      apply unique_tiers_In. now exists r.
    + apply tier_cities_In. now exists r.
Qed.

(** The tiers of the menu are in ascending order without repetition, and
    so are the cities under each tier. *)
Theorem cities_by_tier_sorted_unique :
  forall real_estate_df : list CostRow,
    Sorted str_le (map fst (cities_by_tier real_estate_df)) /\
    NoDup (map fst (cities_by_tier real_estate_df)) /\
    forall tier cities,
      In (tier, cities) (cities_by_tier real_estate_df) ->
      Sorted str_le cities /\ NoDup cities.
Proof.
  intros df.
  assert (Hkeys : map fst (cities_by_tier df) = unique_tiers df).
  { unfold cities_by_tier. rewrite map_map. cbn. apply map_id. }
  rewrite Hkeys. split; [apply list_sort_Sorted |]. split.
  - unfold unique_tiers.
    apply (Permutation_NoDup (list_sort_perm _)).
    apply drop_duplicates_from_NoDup.
  - intros t cs Hin. apply cities_by_tier_In in Hin. destruct Hin as [_ ->].
    unfold tier_cities. split; [apply list_sort_Sorted |].
    apply (Permutation_NoDup (list_sort_perm _)).
    apply drop_duplicates_from_NoDup.
Qed.

Lemma first_cost_found (df : list CostRow) (city : string) :
  (exists r, In r df /\ City r = city) ->
  exists cost, first_cost df city = inr cost.
Proof.
  intros (r & Hin & Hc). unfold first_cost.
  destruct (city_rows df city) as [| x rest] eqn:E.
  - apply city_rows_nil in E. rewrite Forall_forall in E.
    now destruct (E r Hin).
  - cbn. now eexists.
Qed.

(** A city taken from the menu has a row in the real-estate table: its
    real-estate lookup succeeds, and with the IT-infrastructure toggle off
    [calculate_costs] returns costs as soon as a bracket holds the
    headcount and the headcount is a non-zero integer within the floats.
    (The menu is built from the real-estate table alone.) *)
Theorem menu_city_has_real_estate_cost :
  forall (real_estate_df : list CostRow) (tier city : string)
    (cities : list string),
    In (tier, cities) (cities_by_tier real_estate_df) ->
    In city cities ->
    (exists cost, first_cost real_estate_df city = inr cost) /\
    forall (headcount : Z) (selected_plan : string)
      (enabling_toggle technology_toggle : bool)
      (it_infra_df : list CostRow) (plans_df : list PlanRow)
      (plan_row : PlanRow) (hc : float),
      scan_plans plans_df headcount = Some plan_row ->
      headcount <> 0 ->
      float_of_int headcount = inr hc ->
      exists c,
        calculate_costs headcount city selected_plan
          true false enabling_toggle technology_toggle
          real_estate_df it_infra_df plans_df = Some c.
Proof.
  intros df t c cs Hin Hc.
  apply cities_by_tier_In in Hin. destruct Hin as [_ ->].
  apply tier_cities_In in Hc. destruct Hc as (r & Hr & _ & Hcity).
  assert (Hrows : city_rows df c <> []).
  { intros E. apply city_rows_nil in E. rewrite Forall_forall in E.
    now destruct (E r Hr). }
  split; [apply first_cost_found; now exists r |].
  intros hc plan t3 t4 it_df plans row f Hrow Hnz Hf.
  destruct (seat_cost_returns true df c hc f (fun _ => Hrows) Hf) as [x Hx].
  exists (costs_of plan t3 t4 x 0%float row f).
  apply calculate_costs_Some. exists x, 0%float, row, f. now repeat split.
Qed.

Lemma menu_city_has_real_estate_cost_witness :
  exists cost, first_cost duplicate_city_table "CityA" = inr cost.
Proof.
  apply (menu_city_has_real_estate_cost duplicate_city_table
           "Tier 2" "CityA" ["CityA"]).
  - vm_compute. right. left. reflexivity.
  - left. reflexivity.
Defined.

(** ** calculate_costs: failure, table order, flat plan costs *)

(** The causes of failure are five and no more: [calculate_costs] returns
    its tuple of [None] exactly when an enabled cost table has no row of
    the city, or no bracket passes the test of the code for the headcount,
    or the headcount is 0, or the headcount is too large for a float. *)
Theorem calculate_costs_fails_iff :
  forall (headcount : Z) (selected_city selected_plan : string)
    (real_estate_toggle it_infra_toggle enabling_toggle technology_toggle : bool)
    (real_estate_df it_infra_df : list CostRow) (plans_df : list PlanRow),
    calculate_costs headcount selected_city selected_plan
      real_estate_toggle it_infra_toggle enabling_toggle technology_toggle
      real_estate_df it_infra_df plans_df = None <->
    (real_estate_toggle = true /\
     Forall (fun r => City r <> selected_city) real_estate_df) \/
    (it_infra_toggle = true /\
     Forall (fun r => City r <> selected_city) it_infra_df) \/
    Forall (fun r => in_bracket r headcount = false) plans_df \/
    headcount = 0 \/
    float_of_int headcount = inl OverflowError.
Proof.
  intros hc city plan t1 t2 t3 t4 re_df it_df plans. split.
  - intros Hnone.
    destruct (scan_plans plans hc) as [row |] eqn:Hrow.
    2:{ right; right; left. now apply scan_plans_None. }
    destruct (Z.eq_dec hc 0) as [Hz | Hnz]; [now right; right; right; left |].
    destruct (float_of_int hc) as [e | f] eqn:Hf.
    { right; right; right; right.
      now rewrite (float_of_int_exn _ _ Hf). }
    destruct (seat_cost t1 re_df city hc) as [e | re] eqn:Hre.
    { apply seat_cost_exn in Hre.
      destruct Hre as [-> [[_ Habs] | [_ Hov]]]; [| congruence].
      left. split; [reflexivity | now apply city_rows_nil]. }
    destruct (seat_cost t2 it_df city hc) as [e | it] eqn:Hit.
    { apply seat_cost_exn in Hit.
      destruct Hit as [-> [[_ Habs] | [_ Hov]]]; [| congruence].
      right; left. split; [reflexivity | now apply city_rows_nil]. }
    assert (Hsome : calculate_costs hc city plan t1 t2 t3 t4 re_df it_df plans
                    = Some (costs_of plan t3 t4 re it row f)).
    { apply calculate_costs_Some. exists re, it, row, f. now repeat split. }
    congruence.
  - intros Hcause.
    destruct (calculate_costs hc city plan t1 t2 t3 t4 re_df it_df plans)
      as [c |] eqn:Hc; [| reflexivity].
    apply calculate_costs_Some in Hc.
    destruct Hc as (re & it & row & f & Hre & Hit & Hrow & Hnz & Hf & _).
    destruct Hcause as [[-> Habs] | [[-> Habs] | [Hno | [Hz | Hov]]]].
    + apply city_rows_nil in Habs.
      rewrite (seat_cost_absent _ _ _ Habs) in Hre. discriminate.
    + apply city_rows_nil in Habs.
      rewrite (seat_cost_absent _ _ _ Habs) in Hit. discriminate.
    + apply scan_plans_None in Hno. congruence.
    + contradiction.
    + congruence.
Qed.

Lemma scan_plans_filter (plans : list PlanRow) (hc : Z) :
  scan_plans plans hc = hd_error (filter (fun r => in_bracket r hc) plans).
Proof.
  induction plans as [| r plans IH]; cbn; [reflexivity |].
  destruct (in_bracket r hc); [reflexivity | exact IH].
Qed.

Lemma first_cost_filter (df : list CostRow) (city : string) :
  first_cost df city =
  match option_map Cost_INR_PM (hd_error (city_rows df city)) with
  | Some c => inr c
  | None => inl IndexError
  end.
Proof. unfold first_cost. destruct (city_rows df city); reflexivity. Qed.

(** When the selected elements of a list agree on [f], the first of them
    gives the same [f] in every arrangement of the list. *)
Lemma hd_filter_permutation {A B : Type} (p : A -> bool) (f : A -> B)
  (l l' : list A) :
  Permutation l l' ->
  (forall x y, In x l -> In y l -> p x = true -> p y = true -> f x = f y) ->
  option_map f (hd_error (filter p l)) =
  option_map f (hd_error (filter p l')).
Proof.
  intros Hperm Hsame.
  destruct (filter p l) as [| x xs] eqn:E;
    destruct (filter p l') as [| y ys] eqn:E'; cbn; try reflexivity.
  - assert (Hy : In y (filter p l')) by (rewrite E'; now left).
    apply filter_In in Hy. destruct Hy as [Hy Hpy].
    apply (Permutation_in _ (Permutation_sym Hperm)) in Hy.
    assert (Hin : In y (filter p l)) by (apply filter_In; now split).
    rewrite E in Hin. destruct Hin.
  - assert (Hx : In x (filter p l)) by (rewrite E; now left).
    apply filter_In in Hx. destruct Hx as [Hx Hpx].
    apply (Permutation_in _ Hperm) in Hx.
    assert (Hin : In x (filter p l')) by (apply filter_In; now split).
    rewrite E' in Hin. destruct Hin.
  - assert (Hx : In x (filter p l)) by (rewrite E; now left).
    assert (Hy : In y (filter p l')) by (rewrite E'; now left).
    apply filter_In in Hx, Hy. destruct Hx as [Hx Hpx], Hy as [Hy Hpy].
    apply (Permutation_in _ (Permutation_sym Hperm)) in Hy.
    f_equal. now apply Hsame.
Qed.

Lemma seat_cost_permutation (toggle : bool) (df df' : list CostRow)
  (city : string) (hc : Z) :
  Permutation df df' ->
  (forall r1 r2, In r1 df -> In r2 df -> City r1 = city -> City r2 = city ->
                 Cost_INR_PM r1 = Cost_INR_PM r2) ->
  seat_cost toggle df city hc = seat_cost toggle df' city hc.
Proof.
  intros Hperm Hsame. unfold seat_cost. rewrite !first_cost_filter.
  unfold city_rows.
  rewrite (hd_filter_permutation _ Cost_INR_PM df df' Hperm); [reflexivity |].
  intros x y Hx Hy Hpx Hpy. apply String.eqb_eq in Hpx, Hpy.
  now apply Hsame.
Qed.

Lemma scan_plans_try_permutation (plans plans' : list PlanRow) (hc : Z) :
  Permutation plans plans' ->
  (forall p1 p2, In p1 plans -> In p2 plans ->
      in_bracket p1 hc = true -> in_bracket p2 hc = true -> p1 = p2) ->
  scan_plans_try plans hc = scan_plans_try plans' hc.
Proof.
  intros Hperm Hone.
  assert (Hscan : scan_plans plans hc = scan_plans plans' hc).
  { rewrite !scan_plans_filter.
    pose proof (hd_filter_permutation (fun r => in_bracket r hc)
                  (fun r => r) plans plans' Hperm) as H.
    assert (Hid : forall o : option PlanRow, option_map (fun r => r) o = o)
      by (now intros [r |]).
    rewrite !Hid in H. apply H. intros x y Hx Hy Hpx Hpy. now apply Hone. }
  destruct plans as [| r plans], plans' as [| r' plans'].
  - reflexivity.
  - apply Permutation_nil in Hperm. discriminate Hperm.
  - apply Permutation_sym, Permutation_nil in Hperm. discriminate Hperm.
  - unfold scan_plans_try. now rewrite Hscan.
Qed.

(** When the rows of the selected city agree on the cost in each cost
    table, and at most one bracket passes the test of the code for the
    headcount, the order of the rows of the three tables does not matter
    to [calculate_costs]. *)
Theorem calculate_costs_any_row_order :
  forall (headcount : Z) (selected_city selected_plan : string)
    (real_estate_toggle it_infra_toggle enabling_toggle technology_toggle : bool)
    (real_estate_df it_infra_df real_estate_df' it_infra_df' : list CostRow)
    (plans_df plans_df' : list PlanRow),
    Permutation real_estate_df real_estate_df' ->
    Permutation it_infra_df it_infra_df' ->
    Permutation plans_df plans_df' ->
    (forall r1 r2, In r1 real_estate_df -> In r2 real_estate_df ->
        City r1 = selected_city -> City r2 = selected_city ->
        Cost_INR_PM r1 = Cost_INR_PM r2) ->
    (forall r1 r2, In r1 it_infra_df -> In r2 it_infra_df ->
        City r1 = selected_city -> City r2 = selected_city ->
        Cost_INR_PM r1 = Cost_INR_PM r2) ->
    (forall p1 p2, In p1 plans_df -> In p2 plans_df ->
        in_bracket p1 headcount = true ->
        in_bracket p2 headcount = true -> p1 = p2) ->
    calculate_costs headcount selected_city selected_plan
      real_estate_toggle it_infra_toggle enabling_toggle technology_toggle
      real_estate_df it_infra_df plans_df =
    calculate_costs headcount selected_city selected_plan
      real_estate_toggle it_infra_toggle enabling_toggle technology_toggle
      real_estate_df' it_infra_df' plans_df'.
Proof.
  intros hc city plan t1 t2 t3 t4 re it re' it' plans plans'
    Pre Pit Ppl Ure Uit Upl.
  unfold calculate_costs, calculate_costs_try.
  rewrite (seat_cost_permutation t1 re re' city hc Pre Ure).
  rewrite (seat_cost_permutation t2 it it' city hc Pit Uit).
  now rewrite (scan_plans_try_permutation plans plans' hc Ppl Upl).
Qed.

Lemma calculate_costs_any_row_order_witness :
  calculate_costs 10 "CityA" "Basic" true true true true
    [mkCostRow "Tier 1" "CityB" 8000%float;
     mkCostRow "Tier 2" "CityA" 10000%float]
    example_it_infra example_plans =
  calculate_costs 10 "CityA" "Basic" true true true true
    [mkCostRow "Tier 2" "CityA" 10000%float;
     mkCostRow "Tier 1" "CityB" 8000%float]
    example_it_infra example_plans.
Proof.
  apply calculate_costs_any_row_order.
  - apply perm_swap.
  - apply Permutation_refl.
  - apply Permutation_refl.
  - intros r1 r2 [<- | [<- | []]] [<- | [<- | []]]; cbn;
      try reflexivity; discriminate.
  - intros r1 r2 [<- | []] [<- | []]. reflexivity.
  - intros p1 p2 [<- | []] [<- | []]. reflexivity.
Defined.

(** The enabling and technology costs are flat within a bracket: two
    successful runs on the same plan table, plan name and plan toggles
    whose headcounts select the same bracket return the same two costs,
    whatever the cities, the cost tables and the per-seat toggles are. *)
Theorem plan_costs_flat_in_bracket :
  forall (headcount headcount' : Z) (city city' selected_plan : string)
    (re_toggle it_toggle re_toggle' it_toggle' : bool)
    (enabling_toggle technology_toggle : bool)
    (re_df it_df re_df' it_df' : list CostRow) (plans_df : list PlanRow)
    (c c' : Costs),
    scan_plans plans_df headcount = scan_plans plans_df headcount' ->
    calculate_costs headcount city selected_plan re_toggle it_toggle
      enabling_toggle technology_toggle re_df it_df plans_df = Some c ->
    calculate_costs headcount' city' selected_plan re_toggle' it_toggle'
      enabling_toggle technology_toggle re_df' it_df' plans_df = Some c' ->
    enab_cost c = enab_cost c' /\ tech_cost c = tech_cost c'.
Proof.
  intros hc hc' city city' plan t1 t2 t1' t2' t3 t4 re it re' it' plans c c'
    Hsame Hc Hc'.
  apply calculate_costs_Some in Hc, Hc'.
  destruct Hc as (x & y & row & f & _ & _ & Hrow & _ & _ & ->).
  destruct Hc' as (x' & y' & row' & f' & _ & _ & Hrow' & _ & _ & ->).
  rewrite Hsame, Hrow' in Hrow. inversion Hrow; subst. now split.
Qed.

Lemma plan_costs_flat_in_bracket_witness :
  exists c c',
    calculate_costs 10 "CityA" "Basic" true true true true
      example_real_estate example_it_infra example_plans = Some c /\
    calculate_costs 90 "CityB" "Basic" false false true true
      [] [] example_plans = Some c' /\
    enab_cost c = enab_cost c' /\ tech_cost c = tech_cost c'.
Proof.
  eexists. eexists.
  split; [vm_compute; reflexivity |]. split; [vm_compute; reflexivity |].
  apply (plan_costs_flat_in_bracket 10 90 "CityA" "CityB" "Basic"
           true true false false true true
           example_real_estate example_it_infra [] [] example_plans).
  - reflexivity.
  - vm_compute. reflexivity.
  - vm_compute. reflexivity.
Defined.
